(** * nau-s3-sync: the rclone shim of [src/main.go], embedded and verified

    The program reads its configuration from the process environment,
    renders an rclone configuration file, runs [rclone sync] as a child
    process and logs the outcome.  The embedding follows [src/main.go]
    function by function:

    - the environment is a finite map from variable names to values;
    - Go strings are byte strings ([string]), Go [int] is a 64-bit integer
      carried by [Z];
    - a Go [error] is a tree of messages ([fmt.Errorf] with [%w] wraps);
    - everything the program does to the outside world (file system, child
      process, logger, standard error, [os.Exit]) is an [Event] appended to a
      trace, and what the outside world answers is read from an [OS] record;
    - the iteration order of Go's [range] over a map is an explicit argument.

    The child writes to the streams it inherits and runs in the environment
    it inherits; what it prints and what it reads from that environment are
    not part of the model, only its command line and how it ends. *)

From Stdlib Require Import ZArith String Ascii List Lia.
From stdpp Require Import base option list strings gmap pretty.

Local Open Scope string_scope.
Local Open Scope Z_scope.

(** ** Go primitives used by the program *)

Module Go.

(** [error]: [errorString] is a leaf ([errors.New], [fmt.Errorf] without
    [%w], an error of the operating system); [wrapError] is what
    [fmt.Errorf] builds for a [%w] verb: the formatted text and the error
    that [Unwrap] gives back. *)
Inductive error : Type :=
| errorString (s : string)
| wrapError (msg : string) (inner : error).

(** [err.Error()] *)
Definition Error (e : error) : string :=
  match e with
  | errorString s => s
  | wrapError msg _ => msg
  end.

(** [errors.Unwrap] *)
Definition Unwrap (e : error) : option error :=
  match e with
  | errorString _ => None
  | wrapError _ inner => Some inner
  end.

(** [fmt.Errorf(prefix + "%w", err)] *)
Definition Errorf_w (prefix : string) (err : error) : error :=
  wrapError (prefix +:+ Error err) err.

(** [os.Getenv]: the value of the variable, empty when it is not set. *)
Definition Getenv (env : gmap string string) (key : string) : string :=
  default "" (env !! key).

(** The bounds of [int] on the 64-bit targets the image is built for. *)
Definition minInt : Z := - 2 ^ 63.
Definition maxInt : Z := 2 ^ 63 - 1.

Definition is_digit (ch : ascii) : bool :=
  let n := N_of_ascii ch in ((48 <=? n) && (n <=? 57))%N.

Definition digit_value (ch : ascii) : Z := Z.of_N (N_of_ascii ch) - 48.

(** The digit loop of [strconv.Atoi] / [ParseUint] in base 10: any byte
    that is not a decimal digit is a syntax error. *)
Fixpoint parse_digits (n : Z) (s : string) : option Z :=
  match s with
  | EmptyString => Some n
  | String ch rest =>
      if is_digit ch then parse_digits (n * 10 + digit_value ch) rest
      else None
  end.

Definition is_sign (ch : ascii) : bool :=
  (Ascii.eqb ch "-" || Ascii.eqb ch "+")%char.

(** [strconv.Atoi]: an optional sign, then at least one decimal digit and
    nothing else; a value outside of [int] is a range error.  [None]
    stands for a non-nil [err]. *)
Definition Atoi (s : string) : option Z :=
  match s with
  | EmptyString => None
  | String ch rest =>
      let digits := if is_sign ch then rest else s in
      match digits with
      | EmptyString => None
      | _ =>
          match parse_digits 0 digits with
          | None => None
          | Some n =>
              let v := if Ascii.eqb ch "-"%char then - n else n in
              if (minInt <=? v) && (v <=? maxInt) then Some v else None
          end
      end
  end.

(** [strconv.Itoa]: the decimal text of an integer. *)
Definition Itoa (n : Z) : string := pretty n.

End Go.

Import Go.

(** ** Configuration ([Config], [loadConfig], [validateConfig]) *)

Record Config : Type := mkConfig {
  SourceEndpoint : string;
  SourceAccessKey : string;
  SourceSecretKey : string;
  SourceBucket : string;
  DestEndpoint : string;
  DestAccessKey : string;
  DestSecretKey : string;
  DestBucket : string;
  DestPrefix : string;
  DryRun : bool;
  MaxDelete : Z;
  Retries : Z;
  BandwidthLimit : string;
  LogLevel : string
}.

Definition getEnvOrDefault (env : gmap string string)
    (key defaultValue : string) : string :=
  let value := Getenv env key in
  if negb (value =? "")%string then value else defaultValue.

Definition getEnvIntOrDefault (env : gmap string string)
    (key : string) (defaultValue : Z) : Z :=
  let value := Getenv env key in
  if negb (value =? "")%string then
    match Atoi value with
    | Some intValue => intValue
    | None => defaultValue
    end
  else defaultValue.

(** The map literal [required] of [validateConfig]. *)
Definition required (config : Config) : gmap string string :=
  list_to_map
    [ ("SOURCE_S3_ENDPOINT", SourceEndpoint config);
      ("SOURCE_ACCESS_KEY", SourceAccessKey config);
      ("SOURCE_SECRET_KEY", SourceSecretKey config);
      ("SOURCE_BUCKET", SourceBucket config);
      ("DEST_S3_ENDPOINT", DestEndpoint config);
      ("DEST_ACCESS_KEY", DestAccessKey config);
      ("DEST_SECRET_KEY", DestSecretKey config);
      ("DEST_BUCKET", DestBucket config) ].

(** The keys of [required].  Go leaves the order in which [range] visits a
    map unspecified: a run visits the keys in some order [order], a
    permutation of this list. *)
Definition required_keys : list string :=
  [ "SOURCE_S3_ENDPOINT"; "SOURCE_ACCESS_KEY"; "SOURCE_SECRET_KEY";
    "SOURCE_BUCKET"; "DEST_S3_ENDPOINT"; "DEST_ACCESS_KEY";
    "DEST_SECRET_KEY"; "DEST_BUCKET" ].

(** [for key, value := range m]: the entries of [m] in the order [order]. *)
Definition range_map (order : list string) (m : gmap string string)
    : list (string * string) :=
  omap (fun key => (fun value => (key, value)) <$> m !! key) order.

Definition missing_error (key : string) : error :=
  errorString ("required environment variable " +:+ key +:+ " is not set").

(** The loop of [validateConfig]: return at the first empty value. *)
Fixpoint first_empty (entries : list (string * string)) : option error :=
  match entries with
  | [] => None
  | (key, value) :: rest =>
      if (value =? "")%string then Some (missing_error key)
      else first_empty rest
  end.

(** [validateConfig]; [None] is Go's [nil]. *)
Definition validateConfig (order : list string) (config : Config)
    : option error :=
  first_empty (range_map order (required config)).

(** The struct literal of [loadConfig]. *)
Definition readConfig (env : gmap string string) : Config :=
  let sourceBucket := getEnvOrDefault env "SOURCE_BUCKET" "" in
  {| SourceEndpoint := getEnvOrDefault env "SOURCE_S3_ENDPOINT" "";
     SourceAccessKey := getEnvOrDefault env "SOURCE_ACCESS_KEY" "";
     SourceSecretKey := getEnvOrDefault env "SOURCE_SECRET_KEY" "";
     SourceBucket := sourceBucket;
     DestEndpoint := getEnvOrDefault env "DEST_S3_ENDPOINT" "";
     DestAccessKey := getEnvOrDefault env "DEST_ACCESS_KEY" "";
     DestSecretKey := getEnvOrDefault env "DEST_SECRET_KEY" "";
     DestBucket := getEnvOrDefault env "DEST_BUCKET" "";
     DestPrefix := getEnvOrDefault env "DEST_PREFIX" sourceBucket;
     DryRun := (getEnvOrDefault env "DRY_RUN" "false" =? "true")%string;
     MaxDelete := getEnvIntOrDefault env "MAX_DELETE" 1000;
     Retries := getEnvIntOrDefault env "RETRIES" 3;
     BandwidthLimit := getEnvOrDefault env "BANDWIDTH_LIMIT" "";
     LogLevel := getEnvOrDefault env "LOG_LEVEL" "info" |}.

(** [loadConfig]: [inl err] for [(nil, err)], [inr config] for
    [(config, nil)]. *)
Definition loadConfig (order : list string) (env : gmap string string)
    : error + Config :=
  let config := readConfig env in
  match validateConfig order config with
  | Some err => inl (Errorf_w "configuration validation failed: " err)
  | None => inr config
  end.

(** ** Effects: what the program does to the world around it *)

(** logrus levels, most severe first ([PanicLevel] = 0 ... [TraceLevel] = 6). *)
Inductive Level : Type :=
| PanicLevel | FatalLevel | ErrorLevel | WarnLevel
| InfoLevel | DebugLevel | TraceLevel.

Definition level_rank (l : Level) : nat :=
  match l with
  | PanicLevel => 0 | FatalLevel => 1 | ErrorLevel => 2 | WarnLevel => 3
  | InfoLevel => 4 | DebugLevel => 5 | TraceLevel => 6
  end%nat.

(** The values the program puts into [logrus.Fields]. *)
Inductive Value : Type :=
| VString (s : string)
| VBool (b : bool)
| VStrings (l : list string)
| VDuration (nanoseconds : Z)
| VError (e : error).

(** A log record: what a [logrus.Entry] hands to the formatter. *)
Record Entry : Type := mkEntry {
  entry_level : Level;
  entry_message : string;
  entry_data : gmap string Value
}.

Definition FileMode : Type := N.
Definition octal (u g o : N) : FileMode := (u * 64 + g * 8 + o)%N.

(** What the program emits: a call with its arguments, a log record, a line
    on standard error, the exit.  An event holds what the program passes,
    not what the operating system makes of it. *)
Inductive Event : Type :=
| EMkdirAll (path : string) (perm : FileMode)
| EWriteFile (name : string) (data : string) (perm : FileMode)
| ERemove (name : string)
| ERun (name : string) (args : list string)
| ELog (e : Entry)
| EStderr (text : string)
| EExit (code : Z).

(** How [cmd.Run] ends: the child ran and exited with a status, it ran and
    was ended by a signal, or it could not be started. *)
Inductive RunResult : Type :=
| ExitStatus (status : Z)
| Signaled (signal : string)
| StartError (e : error).

(** The answers of the operating system during one run of the program.
    Each call is made at most once in a run, so one field per call is
    enough.  [elapsed] is what [time.Since(start)] measures. *)
Record OS : Type := mkOS {
  mkdirall_result : option error;
  writefile_result : option error;
  run_result : RunResult;
  elapsed : Z
}.

(** A computation leaves a trace and either returns or ends the process
    ([os.Exit]); nothing after an exit runs, deferred calls included. *)
Inductive outcome (A : Type) : Type :=
| Ret (a : A)
| Exit (code : Z).
Arguments Ret {A} a.
Arguments Exit {A} code.

Definition M (A : Type) : Type := (list Event * outcome A)%type.

Definition ret {A} (a : A) : M A := ([], Ret a).

Definition bind {A B} (f : A -> M B) (m : M A) : M B :=
  match m with
  | (t, Ret a) => let '(t', r) := f a in ((t ++ t')%list, r)
  | (t, Exit code) => (t, Exit code)
  end.

(** [x ← m; k] and [m;; k] below are this monad's bind. *)
#[global] Instance M_ret : MRet M := @ret.
#[global] Instance M_bind : MBind M := @bind.

Definition emit (ev : Event) : M unit := ([ev], Ret tt).

Definition trace {A} (m : M A) : list Event := fst m.
Definition result {A} (m : M A) : outcome A := snd m.

(** [os.Exit] *)
Definition os_Exit {A} (code : Z) : M A := ([EExit code], Exit code).

(** [os.MkdirAll], [os.WriteFile], [os.Remove] *)
Definition MkdirAll (os : OS) (path : string) (perm : FileMode)
    : M (option error) :=
  emit (EMkdirAll path perm) ;; ret (mkdirall_result os).

Definition WriteFile (os : OS) (name data : string) (perm : FileMode)
    : M (option error) :=
  emit (EWriteFile name data perm) ;; ret (writefile_result os).

Definition Remove (name : string) : M unit := emit (ERemove name).

(** What [cmd.Run] returns: [nil] exactly when the child ran and exited with
    status zero; an [*exec.ExitError] reads "exit status N" or
    "signal: NAME"; a child that could not be started gives the error of the
    attempt. *)
Definition run_error (r : RunResult) : option error :=
  match r with
  | ExitStatus status =>
      if status =? 0 then None
      else Some (errorString ("exit status " +:+ Itoa status))
  | Signaled signal => Some (errorString ("signal: " +:+ signal))
  | StartError e => Some e
  end.

(** [exec.Command(name, args...).Run()].  The event carries the name and
    the arguments of the command.  It does not carry what the call takes
    from the process besides: the program is looked up through [PATH], and
    the child inherits the whole environment ([cmd.Env] is never set), the
    key variables included.  How the child ends is an answer of the
    operating system ([run_result]). *)
Definition Run (os : OS) (name : string) (args : list string)
    : M (option error) :=
  emit (ERun name args) ;; ret (run_error (run_result os)).

(** [filepath.Join] on a clean directory and a file name. *)
Definition Join (dir name : string) : string := dir +:+ "/" +:+ name.

(** [defer f()] in front of [body]: [f] runs when [body] returns. *)
Definition defer {A} (deferred : M unit) (body : M A) : M A :=
  r ← body; deferred ;; ret r.

(** *** logrus *)

Record Logger : Type := mkLogger { logger_level : Level }.

Definition IsLevelEnabled (logger : Logger) (level : Level) : bool :=
  (level_rank level <=? level_rank (logger_level logger))%nat.

(** [entry.Log(level, msg)] for an entry with fields [data]. *)
Definition Log (logger : Logger) (data : gmap string Value)
    (level : Level) (msg : string) : M unit :=
  if IsLevelEnabled logger level
  then emit (ELog (mkEntry level msg data))
  else ret tt.

Definition Info (logger : Logger) (data : gmap string Value) (msg : string)
    : M unit :=
  Log logger data InfoLevel msg.

(** [entry.Fatal]: log at fatal level, then [logger.Exit(1)]. *)
Definition Fatal {A} (logger : Logger) (data : gmap string Value)
    (msg : string) : M A :=
  Log logger data FatalLevel msg ;; os_Exit 1.

(** ** The rclone configuration file ([createRcloneConfig]) *)

Definition nl : string := String "010"%char EmptyString.

Definition configContent (config : Config) : string :=
  "[source]" +:+ nl +:+
  "type = s3" +:+ nl +:+
  "provider = Other" +:+ nl +:+
  "access_key_id = " +:+ SourceAccessKey config +:+ nl +:+
  "secret_access_key = " +:+ SourceSecretKey config +:+ nl +:+
  "endpoint = " +:+ SourceEndpoint config +:+ nl +:+
  "acl = private" +:+ nl +:+
  nl +:+
  "[dest]" +:+ nl +:+
  "type = s3" +:+ nl +:+
  "provider = Other" +:+ nl +:+
  "access_key_id = " +:+ DestAccessKey config +:+ nl +:+
  "secret_access_key = " +:+ DestSecretKey config +:+ nl +:+
  "endpoint = " +:+ DestEndpoint config +:+ nl +:+
  "acl = private" +:+ nl.

Definition configDir : string := "/tmp/rclone-config".
Definition configFile : string := Join configDir "rclone.conf".

(** [createRcloneConfig]: the pair is Go's [(string, error)]. *)
Definition createRcloneConfig (os : OS) (config : Config)
    : M (string * option error) :=
  err ← MkdirAll os configDir (octal 7 0 0);
  match err with
  | Some err =>
      ret ("", Some (Errorf_w "failed to create rclone config directory: " err))
  | None =>
      err ← WriteFile os configFile (configContent config) (octal 6 0 0);
      match err with
      | Some err =>
          ret ("", Some (Errorf_w "failed to write rclone config: " err))
      | None => ret (configFile, None)
      end
  end.

(** ** The invocation ([runSync]) *)

Definition sourceRemote (config : Config) : string :=
  "source:" +:+ SourceBucket config.

Definition destRemote (config : Config) : string :=
  "dest:" +:+ DestBucket config +:+ "/" +:+ DestPrefix config.

(** The argument list of [runSync] as it stands when [exec.Command] is
    called: the slice literal and the three conditional [append]s. *)
Definition syncArgs (config : Config) (configFile : string) : list string :=
  let args :=
    [ "sync"; sourceRemote config; destRemote config;
      "--config"; configFile;
      "--delete-during";
      "--checksum";
      "--retries"; Itoa (Retries config);
      "--stats"; "1m";
      "--stats-log-level"; "INFO";
      "--progress" ] in
  let args := if DryRun config then (args ++ ["--dry-run"])%list else args in
  let args :=
    if 0 <? MaxDelete config
    then (args ++ ["--max-delete"; Itoa (MaxDelete config)])%list else args in
  let args :=
    if negb (BandwidthLimit config =? "")%string
    then (args ++ ["--bwlimit"; BandwidthLimit config])%list else args in
  args.

Definition runSync (os : OS) (config : Config) (logger : Logger)
    : M (option error) :=
  '(configFile, err) ← createRcloneConfig os config;
  match err with
  | Some err => ret (Some (Errorf_w "failed to create rclone config: " err))
  | None =>
      defer (Remove configFile) (
        let args := syncArgs config configFile in
        (if DryRun config
         then Info logger ∅ "Running in dry-run mode - no changes will be made"
         else ret tt) ;;
        Info logger
          (list_to_map
             [ ("source", VString (sourceRemote config));
               ("dest", VString (destRemote config));
               ("args", VStrings args) ])
          "Starting rclone sync" ;;
        err ← Run os "rclone" args;
        let duration := elapsed os in
        Info logger
          (list_to_map
             [ ("duration", VDuration duration);
               ("success", VBool (bool_decide (err = None))) ])
          "Sync operation completed" ;;
        match err with
        | Some err => ret (Some (Errorf_w "rclone sync failed: " err))
        | None => ret None
        end)
  end.

(** ** The entry point ([setupLogger], [main]) *)

Section Main.

(** [logrus.ParseLevel] belongs to the logging library; the program only
    relies on its signature.  [None] stands for a non-nil [err]. *)
Variable ParseLevel : string -> option Level.

Definition setupLogger (level : string) : Logger :=
  let logLevel :=
    match ParseLevel level with
    | Some logLevel => logLevel
    | None => InfoLevel
    end in
  mkLogger logLevel.

(** [main] from the point where the configuration is loaded. *)
Definition syncJob (os : OS) (config : Config) : M unit :=
  let logger := setupLogger (LogLevel config) in
  Info logger
    (list_to_map
       [ ("source_bucket", VString (SourceBucket config));
         ("dest_bucket", VString (DestBucket config));
         ("dest_prefix", VString (DestPrefix config));
         ("dry_run", VBool (DryRun config)) ])
    "Starting S3 sync job" ;;
  err ← runSync os config logger;
  match err with
  | Some err =>
      Fatal logger {[ "error" := VError err ]} "Sync operation failed"
  | None => ret tt
  end ;;
  Info logger ∅ "S3 sync job completed successfully".

Definition main (order : list string) (os : OS) (env : gmap string string)
    : M unit :=
  match loadConfig order env with
  | inl err =>
      emit (EStderr ("Configuration error: " +:+ Error err +:+ nl)) ;;
      os_Exit 1
  | inr config => syncJob os config
  end.

End Main.

(** The status the process ends with: the argument of [os.Exit], or zero
    when [main] returns. *)
Definition exit_status (m : M unit) : Z :=
  match result m with
  | Ret _ => 0
  | Exit code => code
  end.

(** ** Vocabulary of the properties *)

(** A variable is missing when it is unset or set to the empty string. *)
Definition missing (env : gmap string string) (key : string) : Prop :=
  env !! key = None \/ env !! key = Some "".

(** [key] occurs in the text [msg]. *)
Definition names (msg key : string) : Prop := is_Some (index 0 key msg).

(** Projections of a trace. *)
Definition log_records (t : list Event) : list Entry :=
  omap (fun ev => match ev with ELog e => Some e | _ => None end) t.

Definition files_written (t : list Event) : list (string * string * FileMode) :=
  omap (fun ev => match ev with
                  | EWriteFile name data perm => Some (name, data, perm)
                  | _ => None
                  end) t.

Definition commands_run (t : list Event) : list (string * list string) :=
  omap (fun ev => match ev with
                  | ERun name args => Some (name, args)
                  | _ => None
                  end) t.

Definition is_log (ev : Event) : bool :=
  match ev with ELog _ => true | _ => false end.

(** What the program does besides logging, in order. *)
Definition actions (t : list Event) : list Event :=
  List.filter (fun ev => negb (is_log ev)) t.

(** The configuration with its four key fields replaced. *)
Definition with_keys (sak ssk dak dsk : string) (c : Config) : Config :=
  {| SourceEndpoint := SourceEndpoint c;
     SourceAccessKey := sak;
     SourceSecretKey := ssk;
     SourceBucket := SourceBucket c;
     DestEndpoint := DestEndpoint c;
     DestAccessKey := dak;
     DestSecretKey := dsk;
     DestBucket := DestBucket c;
     DestPrefix := DestPrefix c;
     DryRun := DryRun c;
     MaxDelete := MaxDelete c;
     Retries := Retries c;
     BandwidthLimit := BandwidthLimit c;
     LogLevel := LogLevel c |}.

(** The environment with its four key variables replaced. *)
Definition with_key_vars (sak ssk dak dsk : string)
    (env : gmap string string) : gmap string string :=
  <["SOURCE_ACCESS_KEY" := sak]> (<["SOURCE_SECRET_KEY" := ssk]>
  (<["DEST_ACCESS_KEY" := dak]> (<["DEST_SECRET_KEY" := dsk]> env))).

(** *** Reading an argument list

    The engine reads its command line the way every pflag program does: an
    option that takes a value consumes the token after it, whatever that
    token looks like; any other token starting with a dash is a flag, the
    rest are positional arguments.  A list contains a flag when a token in
    flag position spells it. *)
Inductive Arg : Type :=
| Positional (s : string)
| Flag (name : string)
| Opt (name value : string).

Definition takes_value (token : string) : bool :=
  existsb (String.eqb token)
    [ "--config"; "--retries"; "--stats"; "--stats-log-level";
      "--max-delete"; "--bwlimit" ].

Fixpoint read_from (pending : option string) (args : list string)
    : list Arg :=
  match args with
  | [] =>
      match pending with
      | Some name => [Flag name]
      | None => []
      end
  | token :: rest =>
      match pending with
      | Some name => Opt name token :: read_from None rest
      | None =>
          if takes_value token then read_from (Some token) rest
          else (if String.prefix "-" token then Flag token else Positional token)
               :: read_from None rest
      end
  end.

Definition read_args (args : list string) : list Arg := read_from None args.

(** What the slice literal of [runSync] reads as. *)
Definition standing_items (config : Config) (file : string) : list Arg :=
  [ Positional "sync";
    Positional (sourceRemote config);
    Positional (destRemote config);
    Opt "--config" file;
    Flag "--delete-during";
    Flag "--checksum";
    Opt "--retries" (Itoa (Retries config));
    Opt "--stats" "1m";
    Opt "--stats-log-level" "INFO";
    Flag "--progress" ].

(** *** Rendering a configuration file from its sections

    A file in the engine's configuration syntax, written from the words of
    the specification: each section is a bracketed name followed by its
    [key = value] lines, and a blank line separates two sections. *)
Definition render_entry (kv : string * string) : string :=
  kv.1 +:+ " = " +:+ kv.2 +:+ nl.

Definition render_section (sec : string * list (string * string)) : string :=
  "[" +:+ sec.1 +:+ "]" +:+ nl +:+ String.concat "" (map render_entry sec.2).

Definition render_ini (secs : list (string * list (string * string)))
    : string :=
  String.concat nl (map render_section secs).

(** One remote: S3-compatible, provider "Other", keys, endpoint, private
    ACL. *)
Definition remote_section (name accessKey secretKey endpoint : string)
    : string * list (string * string) :=
  (name,
   [ ("type", "s3"); ("provider", "Other");
     ("access_key_id", accessKey); ("secret_access_key", secretKey);
     ("endpoint", endpoint); ("acl", "private") ]).

Definition credential_sections (destName : string) (c : Config)
    : list (string * list (string * string)) :=
  [ remote_section "source"
      (SourceAccessKey c) (SourceSecretKey c) (SourceEndpoint c);
    remote_section destName
      (DestAccessKey c) (DestSecretKey c) (DestEndpoint c) ].

(** *** Vocabulary of the further properties *)

(** The variables [loadConfig] reads. *)
Definition config_variables : list string :=
  required_keys ++
  [ "DEST_PREFIX"; "DRY_RUN"; "MAX_DELETE"; "RETRIES"; "BANDWIDTH_LIMIT";
    "LOG_LEVEL" ].

(** The eight fields [validateConfig] looks at. *)
Definition required_fields (c : Config) : list string :=
  [ SourceEndpoint c; SourceAccessKey c; SourceSecretKey c; SourceBucket c;
    DestEndpoint c; DestAccessKey c; DestSecretKey c; DestBucket c ].

(** The configuration with another log level. *)
Definition with_log_level (level : string) (c : Config) : Config :=
  {| SourceEndpoint := SourceEndpoint c;
     SourceAccessKey := SourceAccessKey c;
     SourceSecretKey := SourceSecretKey c;
     SourceBucket := SourceBucket c;
     DestEndpoint := DestEndpoint c;
     DestAccessKey := DestAccessKey c;
     DestSecretKey := DestSecretKey c;
     DestBucket := DestBucket c;
     DestPrefix := DestPrefix c;
     DryRun := DryRun c;
     MaxDelete := MaxDelete c;
     Retries := Retries c;
     BandwidthLimit := BandwidthLimit c;
     LogLevel := level |}.

(** The error [runSync] comes back with, read off the answers of the
    operating system: the first call that fails decides. *)
Definition sync_error (os : OS) : option error :=
  match mkdirall_result os with
  | Some err =>
      Some (Errorf_w "failed to create rclone config: "
              (Errorf_w "failed to create rclone config directory: " err))
  | None =>
      match writefile_result os with
      | Some err =>
          Some (Errorf_w "failed to create rclone config: "
                  (Errorf_w "failed to write rclone config: " err))
      | None =>
          match run_error (run_result os) with
          | Some err => Some (Errorf_w "rclone sync failed: " err)
          | None => None
          end
      end
  end.

(** An event with the content of a written file blanked. *)
Definition redact (ev : Event) : Event :=
  match ev with
  | EWriteFile name _ perm => EWriteFile name "" perm
  | _ => ev
  end.

(** The lines of a text: the pieces between line feeds, as
    [strings.Split(s, "\n")] gives them. *)
Fixpoint lines (s : string) : list string :=
  match s with
  | EmptyString => [""]
  | String ch rest =>
      if Ascii.eqb ch "010"%char then "" :: lines rest
      else match lines rest with
           | line :: more => String ch line :: more
           | [] => [String ch ""]
           end
  end.

Fixpoint has_newline (s : string) : bool :=
  match s with
  | EmptyString => false
  | String ch rest => Ascii.eqb ch "010"%char || has_newline rest
  end.

(** A line that opens a section. *)
Definition is_header (line : string) : bool := String.prefix "[" line.

(** ** Sample inputs *)

Definition sample_env : gmap string string :=
  list_to_map
    [ ("SOURCE_S3_ENDPOINT", "https://s3.src.example");
      ("SOURCE_ACCESS_KEY", "AKSRC");
      ("SOURCE_SECRET_KEY", "sk-src");
      ("SOURCE_BUCKET", "media");
      ("DEST_S3_ENDPOINT", "https://s3.dst.example");
      ("DEST_ACCESS_KEY", "AKDST");
      ("DEST_SECRET_KEY", "sk-dst");
      ("DEST_BUCKET", "backup") ].

Definition sample_config : Config := readConfig sample_env.

(** Every call of the operating system succeeds and the engine exits with
    status zero after 1.5 seconds. *)
Definition ok_os : OS := mkOS None None (ExitStatus 0) 1500000000.

(** The engine exits with status 3. *)
Definition failing_os : OS := mkOS None None (ExitStatus 3) 1500000000.

(** The engine cannot be started. *)
Definition no_engine_os : OS :=
  mkOS None None
    (StartError (errorString "exec: rclone: executable file not found in $PATH"))
    1000.

(** A level parser for the lower-case level names. *)
Definition parse_level (s : string) : option Level :=
  if (s =? "panic")%string then Some PanicLevel
  else if (s =? "fatal")%string then Some FatalLevel
  else if (s =? "error")%string then Some ErrorLevel
  else if (s =? "warn")%string then Some WarnLevel
  else if (s =? "warning")%string then Some WarnLevel
  else if (s =? "info")%string then Some InfoLevel
  else if (s =? "debug")%string then Some DebugLevel
  else if (s =? "trace")%string then Some TraceLevel
  else None.

(** * Properties *)

(** Case analysis on a hypothesis [H : key ∈ required_keys]: one goal for
    each of the eight variables. *)
Ltac each_required H :=
  unfold required_keys in H;
  repeat (apply elem_of_cons in H as [->|H]);
  try (by apply elem_of_nil in H).

(** Unfolding [runSync] down to the events it emits. *)
Ltac unfold_runSync :=
  unfold runSync, createRcloneConfig, MkdirAll, WriteFile, Run, Info, Log.

(** ** Reading the environment *)

Lemma Getenv_empty env key : Getenv env key = "" <-> missing env key.
Proof.
  unfold Getenv, missing. destruct (env !! key) as [v|]; simpl.
  - split; [intros ->; by right | intros [?|?]; congruence].
  - split; [by left | done].
Qed.

Lemma Getenv_lookup env key v : env !! key = Some v -> Getenv env key = v.
Proof. unfold Getenv. by intros ->. Qed.

Lemma getEnvOrDefault_unset env key d :
  Getenv env key = "" -> getEnvOrDefault env key d = d.
Proof. unfold getEnvOrDefault. by intros ->. Qed.

Lemma getEnvOrDefault_set env key d :
  Getenv env key <> "" -> getEnvOrDefault env key d = Getenv env key.
Proof.
  unfold getEnvOrDefault. intros Hne.
  destruct (String.eqb_spec (Getenv env key) ""); [done | reflexivity].
Qed.

Lemma getEnvOrDefault_empty env key :
  getEnvOrDefault env key "" = Getenv env key.
Proof.
  unfold getEnvOrDefault.
  destruct (String.eqb_spec (Getenv env key) "") as [->|]; reflexivity.
Qed.

Lemma Atoi_empty : Atoi "" = None.
Proof. reflexivity. Qed.

Lemma getEnvIntOrDefault_spec env key d :
  getEnvIntOrDefault env key d = default d (Atoi (Getenv env key)).
Proof.
  unfold getEnvIntOrDefault.
  destruct (String.eqb_spec (Getenv env key) "") as [->|]; reflexivity.
Qed.

(** ** Integers and their decimal text *)

Lemma pretty_N_char_digit (d : N) :
  (d < 10)%N ->
  is_digit (pretty_N_char d) = true /\
  is_sign (pretty_N_char d) = false /\
  digit_value (pretty_N_char d) = Z.of_N d.
Proof.
  intros Hd.
  assert (d = 0 \/ d = 1 \/ d = 2 \/ d = 3 \/ d = 4 \/ d = 5 \/ d = 6
          \/ d = 7 \/ d = 8 \/ d = 9)%N as Hcases by lia.
  repeat (destruct Hcases as [->|Hcases]); try subst d; by vm_compute.
Qed.

Lemma parse_digits_pretty_N_go (x : N) (s : string) :
  parse_digits 0 (pretty_N_go x s) = parse_digits (Z.of_N x) s.
Proof.
  revert s. induction (N.lt_wf_0 x) as [x _ IH]. intros s.
  destruct (decide (x = 0)%N) as [->|Hx]; [by rewrite pretty_N_go_0|].
  rewrite pretty_N_go_step by lia.
  rewrite IH by (apply N.div_lt; lia).
  destruct (pretty_N_char_digit (x `mod` 10)%N) as (Hdig & _ & Hval).
  { apply N.mod_lt. lia. }
  cbn [parse_digits]. rewrite Hdig, Hval. f_equal.
  change 10 with (Z.of_N 10). rewrite <- N2Z.inj_mul, <- N2Z.inj_add.
  f_equal. rewrite N.mul_comm. symmetry. by apply N.div_mod.
Qed.

Lemma pretty_N_go_head (x : N) (s : string) :
  (0 < x)%N ->
  exists ch rest, pretty_N_go x s = String ch rest /\ is_sign ch = false.
Proof.
  revert s. induction (N.lt_wf_0 x) as [x _ IH]. intros s Hx.
  rewrite pretty_N_go_step by done.
  destruct (decide (x `div` 10 = 0)%N) as [Hz|Hnz].
  - rewrite Hz, pretty_N_go_0. eexists _, _. split; [done|].
    apply pretty_N_char_digit, N.mod_lt. lia.
  - apply IH; [by apply N.div_lt | by apply N.neq_0_lt_0].
Qed.

Lemma Atoi_Itoa (n : Z) :
  minInt <= n <= maxInt -> Atoi (Itoa n) = Some n.
Proof.
  intros Hn. destruct n as [|p|p]; [reflexivity|..].
  - unfold Itoa, pretty, pretty_Z, pretty, pretty_positive, pretty, pretty_N.
    rewrite decide_False by done.
    destruct (pretty_N_go_head (N.pos p) "") as (ch & rest & Heq & Hsign);
      [done|].
    pose proof (parse_digits_pretty_N_go (N.pos p) "") as Hparse.
    rewrite Heq in *. unfold Atoi. rewrite Hsign, Hparse. cbn [parse_digits].
    assert (Ascii.eqb ch "-" = false) as ->.
    { unfold is_sign in Hsign. by apply orb_false_elim in Hsign as [-> _]. }
    change (Z.of_N (N.pos p)) with (Z.pos p).
    destruct (Z.leb_spec minInt (Z.pos p)), (Z.leb_spec (Z.pos p) maxInt);
      try lia; reflexivity.
  - unfold Itoa, pretty, pretty_Z, pretty, pretty_positive, pretty, pretty_N.
    rewrite decide_False by done.
    destruct (pretty_N_go_head (N.pos p) "") as (ch & rest & Heq & Hsign);
      [done|].
    pose proof (parse_digits_pretty_N_go (N.pos p) "") as Hparse.
    change ("-" +:+ pretty_N_go (N.pos p) "")
      with (String "-" (pretty_N_go (N.pos p) "")).
    unfold Atoi.
    change (is_sign "-"%char) with true.
    change (Ascii.eqb "-" "-")%char with true. cbv iota.
    rewrite Heq in *. rewrite Hparse. cbn [parse_digits].
    change (Z.of_N (N.pos p)) with (Z.pos p).
    change (- Z.pos p) with (Z.neg p).
    destruct (Z.leb_spec minInt (Z.neg p)), (Z.leb_spec (Z.neg p) maxInt);
      try lia; reflexivity.
Qed.

Lemma Atoi_range (s : string) (n : Z) :
  Atoi s = Some n -> minInt <= n <= maxInt.
Proof.
  unfold Atoi. destruct s as [|ch rest]; [done|].
  destruct (if is_sign ch then rest else String ch rest); [done|].
  destruct (parse_digits 0 _) as [m|]; [|done].
  destruct (Z.leb_spec minInt (if Ascii.eqb ch "-" then - m else m));
    [|done].
  destruct (Z.leb_spec (if Ascii.eqb ch "-" then - m else m) maxInt);
    [|done].
  intros [= <-]. done.
Qed.

(** The integer fields of a configuration read from the environment are
    [int]s, and the text [runSync] puts on the command line for them parses
    back to the same value. *)
Lemma readConfig_int_range env :
  minInt <= MaxDelete (readConfig env) <= maxInt /\
  minInt <= Retries (readConfig env) <= maxInt.
Proof.
  cbn [readConfig MaxDelete Retries]. rewrite !getEnvIntOrDefault_spec.
  split.
  - destruct (Atoi (Getenv env "MAX_DELETE")) as [n|] eqn:Hn;
      [by apply Atoi_range in Hn | by vm_compute].
  - destruct (Atoi (Getenv env "RETRIES")) as [n|] eqn:Hn;
      [by apply Atoi_range in Hn | by vm_compute].
Qed.

Lemma readConfig_int_round_trip env :
  Atoi (Itoa (MaxDelete (readConfig env))) = Some (MaxDelete (readConfig env))
  /\ Atoi (Itoa (Retries (readConfig env))) = Some (Retries (readConfig env)).
Proof.
  destruct (readConfig_int_range env). split; by apply Atoi_Itoa.
Qed.

(** ** Validation *)

Lemma required_lookup env key :
  required (readConfig env) !! key
  = if bool_decide (key ∈ required_keys) then Some (Getenv env key) else None.
Proof.
  unfold required, readConfig; cbn [list_to_map foldr fst snd
    SourceEndpoint SourceAccessKey SourceSecretKey SourceBucket
    DestEndpoint DestAccessKey DestSecretKey DestBucket].
  rewrite !getEnvOrDefault_empty.
  unfold required_keys.
  repeat (rewrite lookup_insert; case_decide;
          [subst key; by rewrite bool_decide_eq_true_2 by set_solver |]).
  rewrite lookup_empty, bool_decide_eq_false_2; [done|].
  intros Hin.
  repeat (apply elem_of_cons in Hin as [?|Hin]; [congruence|]).
  by apply elem_of_nil in Hin.
Qed.

Lemma elem_of_range_map order m key value :
  (key, value) ∈ range_map order m <-> key ∈ order /\ m !! key = Some value.
Proof.
  unfold range_map. rewrite list_elem_of_omap. split.
  - intros (k & Hk & Heq). destruct (m !! k) as [v|] eqn:Hm; simplify_eq/=.
    done.
  - intros [Hk Hm]. exists key. by rewrite Hm.
Qed.

Lemma first_empty_Some entries e :
  first_empty entries = Some e ->
  exists key, (key, "") ∈ entries /\ e = missing_error key.
Proof.
  induction entries as [|[k v] rest IH]; simpl; [done|].
  destruct (String.eqb_spec v "") as [->|Hv].
  - intros [= <-]. exists k. split; [left | done].
  - intros (key & Hin & ->)%IH. exists key. split; [by right | done].
Qed.

Lemma first_empty_None entries :
  first_empty entries = None <->
  forall key value, (key, value) ∈ entries -> value <> "".
Proof.
  induction entries as [|[k v] rest IH]; simpl.
  - split; [intros _ ?? Hin; inversion Hin | done].
  - destruct (String.eqb_spec v "") as [->|Hv].
    + split; [done|]. intros H. destruct (H k ""); [left | done].
    + rewrite IH. split.
      * intros H key value [[= -> ->]| Hin]%elem_of_cons; eauto.
      * intros H key value Hin. apply (H key value). by right.
Qed.

Lemma validateConfig_Some order env e :
  validateConfig order (readConfig env) = Some e ->
  exists key,
    key ∈ order /\ key ∈ required_keys /\ missing env key /\
    e = missing_error key.
Proof.
  unfold validateConfig. intros (key & Hin & ->)%first_empty_Some.
  apply elem_of_range_map in Hin as [Hord Hreq].
  rewrite required_lookup in Hreq. case_bool_decide; [|done].
  exists key. repeat split; try done. apply Getenv_empty. congruence.
Qed.

Lemma validateConfig_None order env :
  validateConfig order (readConfig env) = None <->
  forall key, key ∈ order -> key ∈ required_keys -> ~ missing env key.
Proof.
  unfold validateConfig. rewrite first_empty_None. split.
  - intros H key Hord Hreq Hmiss%Getenv_empty.
    apply (H key (Getenv env key)); [|done].
    apply elem_of_range_map. split; [done|].
    by rewrite required_lookup, bool_decide_eq_true_2.
  - intros H key value [Hord Hreq]%elem_of_range_map.
    rewrite required_lookup in Hreq. case_bool_decide; [|done].
    intros ->. apply (H key); [done..|]. apply Getenv_empty. congruence.
Qed.

Lemma loadConfig_inr order env config :
  loadConfig order env = inr config -> config = readConfig env.
Proof.
  unfold loadConfig. destruct (validateConfig _ _); congruence.
Qed.

Lemma loadConfig_complete order env :
  (forall key, key ∈ required_keys -> ~ missing env key) ->
  loadConfig order env = inr (readConfig env).
Proof.
  intros Hall. unfold loadConfig.
  destruct (validateConfig order (readConfig env)) as [e|] eqn:Hv; [|done].
  apply validateConfig_Some in Hv as (key & _ & Hreq & Hmiss & _).
  by destruct (Hall key).
Qed.

Lemma loadConfig_missing order env :
  order ≡ₚ required_keys ->
  (exists key, key ∈ required_keys /\ missing env key) ->
  exists key,
    key ∈ required_keys /\ missing env key /\
    loadConfig order env
    = inl (Errorf_w "configuration validation failed: " (missing_error key)).
Proof.
  intros Hperm (key & Hreq & Hmiss). unfold loadConfig.
  destruct (validateConfig order (readConfig env)) as [e|] eqn:Hv.
  - apply validateConfig_Some in Hv as (key' & _ & Hreq' & Hmiss' & ->).
    by exists key'.
  - destruct (proj1 (validateConfig_None order env) Hv key); try done.
    by rewrite Hperm.
Qed.

(** The text of the error names the variable it was built for and none of
    the other required ones. *)
Lemma missing_error_names key key' :
  key ∈ required_keys -> key' ∈ required_keys ->
  names (Error (Errorf_w "configuration validation failed: "
                  (missing_error key))) key'
  <-> key' = key.
Proof.
  intros Hk Hk'. each_required Hk; each_required Hk';
    (split; [intros [n Hn]; vm_compute in Hn; try done; discriminate
            | intros Heq; try discriminate; by eexists; vm_compute ]).
Qed.

(** ** Loading the configuration *)

(** C1. If one of the eight required variables is unset or empty, loading
    fails with an error whose text names a missing variable, and [main]
    writes that text to standard error and exits with status 1 having
    written no file and run no command.  If all eight are non-empty,
    loading succeeds.  This holds for whatever order the map of required
    values is visited in. *)
Theorem C1_required_variables ParseLevel order os env :
  order ≡ₚ required_keys ->
  ((exists key, key ∈ required_keys /\ missing env key) ->
   exists key err,
     key ∈ required_keys /\ missing env key /\
     loadConfig order env = inl err /\
     Error err
     = "configuration validation failed: required environment variable "
       +:+ key +:+ " is not set" /\
     main ParseLevel order os env
     = ([EStderr ("Configuration error: " +:+ Error err +:+ nl); EExit 1],
        Exit 1) /\
     exit_status (main ParseLevel order os env) = 1 /\
     files_written (trace (main ParseLevel order os env)) = [] /\
     commands_run (trace (main ParseLevel order os env)) = [])
  /\
  ((forall key, key ∈ required_keys -> ~ missing env key) ->
   exists config, loadConfig order env = inr config).
Proof.
  intros Hperm. split.
  - intros Hmiss.
    destruct (loadConfig_missing order env Hperm Hmiss)
      as (key & Hreq & Hkey & Hload).
    exists key, (Errorf_w "configuration validation failed: "
                   (missing_error key)).
    assert (main ParseLevel order os env
            = ([EStderr ("Configuration error: "
                         +:+ Error (Errorf_w "configuration validation failed: "
                                      (missing_error key)) +:+ nl);
                EExit 1], Exit 1)) as Hmain.
    { unfold main. rewrite Hload. reflexivity. }
    repeat split; try done; by rewrite Hmain.
  - intros Hall. exists (readConfig env). by apply loadConfig_complete.
Qed.

Lemma sample_env_complete key :
  key ∈ required_keys -> ~ missing sample_env key.
Proof.
  intros Hk. each_required Hk; intros [H|H]; vm_compute in H; discriminate.
Qed.

Lemma C1_required_variables_witness :
  (exists key err,
     key ∈ required_keys /\ missing (delete "DEST_BUCKET" sample_env) key /\
     loadConfig required_keys (delete "DEST_BUCKET" sample_env) = inl err /\
     Error err
     = "configuration validation failed: required environment variable "
       +:+ key +:+ " is not set" /\
     main parse_level required_keys ok_os (delete "DEST_BUCKET" sample_env)
     = ([EStderr ("Configuration error: " +:+ Error err +:+ nl); EExit 1],
        Exit 1) /\
     exit_status
       (main parse_level required_keys ok_os (delete "DEST_BUCKET" sample_env))
     = 1 /\
     files_written
       (trace (main parse_level required_keys ok_os
                 (delete "DEST_BUCKET" sample_env))) = [] /\
     commands_run
       (trace (main parse_level required_keys ok_os
                 (delete "DEST_BUCKET" sample_env))) = [])
  /\ (exists config, loadConfig required_keys sample_env = inr config).
Proof.
  split.
  - apply (C1_required_variables parse_level required_keys ok_os
             (delete "DEST_BUCKET" sample_env)); [reflexivity|].
    exists "DEST_BUCKET". split; [|left; reflexivity].
    unfold required_keys. do 7 apply list_elem_of_further.
    apply list_elem_of_here.
  - apply (C1_required_variables parse_level required_keys ok_os sample_env);
      [reflexivity|].
    exact sample_env_complete.
Defined.

(** C10. When required variables are missing, the error names exactly one
    of the required variables, and that one is missing; which one depends on
    the order in which the map is visited, so two runs on the same
    environment can name different variables. *)
Theorem C10_one_missing_variable_named :
  (forall order env,
     order ≡ₚ required_keys ->
     (exists key, key ∈ required_keys /\ missing env key) ->
     exists key err,
       loadConfig order env = inl err /\
       key ∈ required_keys /\ missing env key /\
       forall key', key' ∈ required_keys ->
                    names (Error err) key' <-> key' = key)
  /\
  (exists env order1 order2 err1 err2,
     order1 ≡ₚ required_keys /\ order2 ≡ₚ required_keys /\
     loadConfig order1 env = inl err1 /\
     loadConfig order2 env = inl err2 /\
     names (Error err1) "SOURCE_BUCKET" /\
     ~ names (Error err2) "SOURCE_BUCKET" /\
     names (Error err2) "DEST_BUCKET").
Proof.
  split.
  - intros order env Hperm Hmiss.
    destruct (loadConfig_missing order env Hperm Hmiss)
      as (key & Hreq & Hkey & Hload).
    exists key, (Errorf_w "configuration validation failed: "
                   (missing_error key)).
    repeat split; try done; by apply missing_error_names.
  - exists (delete "SOURCE_BUCKET" (delete "DEST_BUCKET" sample_env)),
      required_keys, (rotate 4 required_keys).
    eexists _, _. split; [reflexivity|]. split.
    { unfold rotate. cbn [length required_keys]. simpl.
      apply (Permutation_app_comm
               ["DEST_S3_ENDPOINT"; "DEST_ACCESS_KEY";
                "DEST_SECRET_KEY"; "DEST_BUCKET"]
               ["SOURCE_S3_ENDPOINT"; "SOURCE_ACCESS_KEY";
                "SOURCE_SECRET_KEY"; "SOURCE_BUCKET"]). }
    split; [vm_compute; reflexivity|].
    split; [vm_compute; reflexivity|].
    split; [by eexists; vm_compute|].
    split; [intros [n Hn]; vm_compute in Hn; discriminate|].
    by eexists; vm_compute.
Qed.

Lemma C10_one_missing_variable_named_witness :
  exists key err,
    loadConfig (rotate 4 required_keys)
      (delete "SOURCE_BUCKET" (delete "DEST_BUCKET" sample_env)) = inl err /\
    key ∈ required_keys /\
    missing (delete "SOURCE_BUCKET" (delete "DEST_BUCKET" sample_env)) key /\
    forall key', key' ∈ required_keys ->
                 names (Error err) key' <-> key' = key.
Proof.
  apply (proj1 C10_one_missing_variable_named).
  - apply (Permutation_app_comm
             ["DEST_S3_ENDPOINT"; "DEST_ACCESS_KEY";
              "DEST_SECRET_KEY"; "DEST_BUCKET"]
             ["SOURCE_S3_ENDPOINT"; "SOURCE_ACCESS_KEY";
              "SOURCE_SECRET_KEY"; "SOURCE_BUCKET"]).
  - exists "DEST_BUCKET". split; [|left; reflexivity].
    unfold required_keys. do 7 apply list_elem_of_further.
    apply list_elem_of_here.
Defined.

(** C7. The loaded dry-run field is true exactly when [DRY_RUN] is set to
    the string "true"; unset, empty or any other value gives false. *)
Theorem C7_dry_run_exact_match order env :
  (forall key, key ∈ required_keys -> ~ missing env key) ->
  exists config,
    loadConfig order env = inr config /\
    (DryRun config = true <-> env !! "DRY_RUN" = Some "true").
Proof.
  intros Hall. exists (readConfig env).
  split; [by apply loadConfig_complete|].
  cbn [readConfig DryRun].
  destruct (decide (Getenv env "DRY_RUN" = "")) as [He|Hne].
  - rewrite getEnvOrDefault_unset by done. split; [discriminate|].
    intros Hs. unfold Getenv in He. rewrite Hs in He. discriminate.
  - rewrite getEnvOrDefault_set by done. rewrite String.eqb_eq.
    unfold Getenv in *.
    destruct (env !! "DRY_RUN"); simpl in *; split; congruence.
Qed.

Lemma C7_dry_run_exact_match_witness :
  exists config,
    loadConfig required_keys (<["DRY_RUN" := "True"]> sample_env)
    = inr config /\
    (DryRun config = true
     <-> <["DRY_RUN" := "True"]> sample_env !! "DRY_RUN" = Some "true").
Proof.
  apply (C7_dry_run_exact_match required_keys
           (<["DRY_RUN" := "True"]> sample_env)).
  intros key Hk [H|H]; each_required Hk; vm_compute in H; discriminate.
Defined.

(** The values the specification lists for [DRY_RUN]. *)
Example dry_run_values :
  map (fun v => DryRun (readConfig (<["DRY_RUN" := v]> sample_env)))
      ["true"; "false"; "True"; "TRUE"; "1"; ""; "true "]
  = [true; false; false; false; false; false; false]
  /\ DryRun (readConfig sample_env) = false.
Proof. split; vm_compute; reflexivity. Qed.

(** C8. With [DEST_PREFIX] unset or empty the destination prefix is the
    value of [SOURCE_BUCKET]; with [DEST_PREFIX] set to a non-empty string
    it is that string. *)
Theorem C8_dest_prefix_default order env :
  (forall key, key ∈ required_keys -> ~ missing env key) ->
  exists config,
    loadConfig order env = inr config /\
    (missing env "DEST_PREFIX" ->
     env !! "SOURCE_BUCKET" = Some (DestPrefix config)) /\
    (forall prefix,
       env !! "DEST_PREFIX" = Some prefix -> prefix <> "" ->
       DestPrefix config = prefix).
Proof.
  intros Hall. exists (readConfig env).
  split; [by apply loadConfig_complete|].
  cbn [readConfig DestPrefix]. split.
  - intros Hmiss%Getenv_empty.
    rewrite (getEnvOrDefault_unset _ _ _ Hmiss), getEnvOrDefault_empty.
    assert (~ missing env "SOURCE_BUCKET") as Hsb.
    { apply Hall. unfold required_keys.
      do 3 apply list_elem_of_further. apply list_elem_of_here. }
    unfold missing, Getenv in *.
    destruct (env !! "SOURCE_BUCKET"); [done|]. destruct Hsb. by left.
  - intros prefix Hp Hne.
    rewrite getEnvOrDefault_set; by rewrite (Getenv_lookup _ _ _ Hp).
Qed.

Lemma C8_dest_prefix_default_witness :
  exists config,
    loadConfig required_keys sample_env = inr config /\
    (missing sample_env "DEST_PREFIX" ->
     sample_env !! "SOURCE_BUCKET" = Some (DestPrefix config)) /\
    (forall prefix,
       sample_env !! "DEST_PREFIX" = Some prefix -> prefix <> "" ->
       DestPrefix config = prefix).
Proof.
  apply (C8_dest_prefix_default required_keys sample_env).
  exact sample_env_complete.
Defined.

Example dest_prefix_values :
  DestPrefix (readConfig sample_env) = "media" /\
  DestPrefix (readConfig (<["DEST_PREFIX" := ""]> sample_env)) = "media" /\
  DestPrefix (readConfig (<["DEST_PREFIX" := "mirror/a"]> sample_env))
  = "mirror/a".
Proof. repeat split; vm_compute; reflexivity. Qed.

(** C9. [MAX_DELETE] and [RETRIES]: a value that does not parse as an
    integer gives the default (1000 and 3) and loading still succeeds; an
    unset or empty variable gives the same default; a value that parses is
    used. *)
Theorem C9_integer_fields_lenient order env :
  (forall key, key ∈ required_keys -> ~ missing env key) ->
  exists config,
    loadConfig order env = inr config /\
    (missing env "MAX_DELETE" -> MaxDelete config = 1000) /\
    (forall v, env !! "MAX_DELETE" = Some v -> Atoi v = None ->
               MaxDelete config = 1000) /\
    (forall v n, env !! "MAX_DELETE" = Some v -> Atoi v = Some n ->
                 MaxDelete config = n) /\
    (missing env "RETRIES" -> Retries config = 3) /\
    (forall v, env !! "RETRIES" = Some v -> Atoi v = None ->
               Retries config = 3) /\
    (forall v n, env !! "RETRIES" = Some v -> Atoi v = Some n ->
                 Retries config = n).
Proof.
  intros Hall. exists (readConfig env).
  split; [by apply loadConfig_complete|].
  cbn [readConfig MaxDelete Retries]. rewrite !getEnvIntOrDefault_spec.
  repeat split.
  - intros ->%Getenv_empty. reflexivity.
  - intros v Hv Hp. by rewrite (Getenv_lookup _ _ _ Hv), Hp.
  - intros v n Hv Hp. by rewrite (Getenv_lookup _ _ _ Hv), Hp.
  - intros ->%Getenv_empty. reflexivity.
  - intros v Hv Hp. by rewrite (Getenv_lookup _ _ _ Hv), Hp.
  - intros v n Hv Hp. by rewrite (Getenv_lookup _ _ _ Hv), Hp.
Qed.

Lemma C9_integer_fields_lenient_witness :
  exists config,
    loadConfig required_keys
      (<["MAX_DELETE" := "not-a-number"]> (<["RETRIES" := "5"]> sample_env))
    = inr config /\
    MaxDelete config = 1000 /\ Retries config = 5.
Proof.
  destruct (C9_integer_fields_lenient required_keys
              (<["MAX_DELETE" := "not-a-number"]>
                 (<["RETRIES" := "5"]> sample_env)))
    as (config & Hload & _ & Hbad & _ & _ & _ & Hgood).
  - intros key Hk [H|H]; each_required Hk; vm_compute in H; discriminate.
  - exists config. split; [exact Hload|]. split.
    + apply (Hbad "not-a-number"); reflexivity.
    + apply (Hgood "5" 5); reflexivity.
Defined.

Example integer_field_values :
  map (fun v => MaxDelete (readConfig (<["MAX_DELETE" := v]> sample_env)))
      ["50"; "0"; "-7"; "+12"; "not-a-number"; "1e3"; " 50"; "";
       "9223372036854775807"; "9223372036854775808"]
  = [50; 0; -7; 12; 1000; 1000; 1000; 1000; 9223372036854775807; 1000]
  /\ MaxDelete (readConfig sample_env) = 1000
  /\ Retries (readConfig sample_env) = 3.
Proof. repeat split; vm_compute; reflexivity. Qed.

(** ** The credential file *)

Lemma append_assoc (a b c : string) : (a +:+ b) +:+ c = a +:+ (b +:+ c).
Proof.
  induction a as [|ch a IH]; [done|].
  change (String ch ((a +:+ b) +:+ c) = String ch (a +:+ b +:+ c)).
  by f_equal.
Qed.

(** The text written by [createRcloneConfig] is the rendering of the two
    remotes, named "source" and "dest". *)
Lemma configContent_sections config :
  configContent config = render_ini (credential_sections "dest" config).
Proof.
  unfold configContent, render_ini, credential_sections, remote_section,
    render_section, render_entry.
  cbn [map String.concat fst snd].
  rewrite !append_assoc. reflexivity.
Qed.

Lemma lines_nl rest : lines (nl +:+ rest) = "" :: lines rest.
Proof. reflexivity. Qed.

Lemma has_newline_app a b :
  has_newline (a +:+ b) = has_newline a || has_newline b.
Proof.
  induction a as [|ch a IH]; [done|].
  change (String ch a +:+ b) with (String ch (a +:+ b)).
  cbn [has_newline]. by rewrite IH, orb_assoc.
Qed.

Lemma lines_app_nl a rest :
  has_newline a = false -> lines (a +:+ nl +:+ rest) = a :: lines rest.
Proof.
  induction a as [|ch a IH]; [done|].
  change (String ch a +:+ nl +:+ rest) with (String ch (a +:+ nl +:+ rest)).
  cbn [has_newline lines].
  intros [-> Ha]%orb_false_elim. by rewrite IH.
Qed.

Lemma lines_app_nl_end a :
  has_newline a = false -> lines (a +:+ nl) = [a; ""].
Proof.
  induction a as [|ch a IH]; [done|].
  change (String ch a +:+ nl) with (String ch (a +:+ nl)).
  cbn [has_newline lines].
  intros [-> Ha]%orb_false_elim. by rewrite IH.
Qed.

Lemma lines_entry_nl key value rest :
  has_newline key = false -> has_newline value = false ->
  lines (key +:+ value +:+ nl +:+ rest) = (key +:+ value) :: lines rest.
Proof.
  intros Hk Hv. rewrite <- append_assoc. apply lines_app_nl.
  by rewrite has_newline_app, Hk, Hv.
Qed.

(** The lines of the text [createRcloneConfig] writes, when no key and no
    endpoint holds a line feed. *)
Lemma configContent_lines config :
  has_newline (SourceAccessKey config) = false ->
  has_newline (SourceSecretKey config) = false ->
  has_newline (SourceEndpoint config) = false ->
  has_newline (DestAccessKey config) = false ->
  has_newline (DestSecretKey config) = false ->
  has_newline (DestEndpoint config) = false ->
  lines (configContent config)
  = [ "[source]";
      "type = s3";
      "provider = Other";
      "access_key_id = " +:+ SourceAccessKey config;
      "secret_access_key = " +:+ SourceSecretKey config;
      "endpoint = " +:+ SourceEndpoint config;
      "acl = private";
      "";
      "[dest]";
      "type = s3";
      "provider = Other";
      "access_key_id = " +:+ DestAccessKey config;
      "secret_access_key = " +:+ DestSecretKey config;
      "endpoint = " +:+ DestEndpoint config;
      "acl = private";
      "" ].
Proof.
  intros H1 H2 H3 H4 H5 H6. unfold configContent.
  repeat first
    [ rewrite lines_app_nl_end by reflexivity
    | rewrite lines_nl
    | rewrite lines_app_nl by reflexivity
    | rewrite lines_entry_nl by (reflexivity || assumption) ].
  reflexivity.
Qed.

(** C3, as amended. [createRcloneConfig] writes one file, at the fixed
    path, with mode 0600 passed to [os.WriteFile]; its text is the rendering
    of two sections named "source" and "dest" (the names the remotes of the
    invocation refer to), each with type s3, provider Other, the access key,
    secret key and endpoint of that remote and a private ACL.  When no key
    and no endpoint holds a line feed, the file has exactly these two
    sections: it reads as the fifteen lines below and a final line feed, and
    the lines that open a section are [[source]] and [[dest]]. *)
Theorem C3_credential_file os config :
  mkdirall_result os = None ->
  files_written (trace (createRcloneConfig os config))
  = [(configFile, render_ini (credential_sections "dest" config),
      octal 6 0 0)]
  /\ (writefile_result os = None ->
      result (createRcloneConfig os config) = Ret (configFile, None))
  /\ (has_newline (SourceAccessKey config) = false ->
      has_newline (SourceSecretKey config) = false ->
      has_newline (SourceEndpoint config) = false ->
      has_newline (DestAccessKey config) = false ->
      has_newline (DestSecretKey config) = false ->
      has_newline (DestEndpoint config) = false ->
      exists data,
        files_written (trace (createRcloneConfig os config))
        = [(configFile, data, 384%N)] /\
        lines data
        = [ "[source]";
            "type = s3";
            "provider = Other";
            "access_key_id = " +:+ SourceAccessKey config;
            "secret_access_key = " +:+ SourceSecretKey config;
            "endpoint = " +:+ SourceEndpoint config;
            "acl = private";
            "";
            "[dest]";
            "type = s3";
            "provider = Other";
            "access_key_id = " +:+ DestAccessKey config;
            "secret_access_key = " +:+ DestSecretKey config;
            "endpoint = " +:+ DestEndpoint config;
            "acl = private";
            "" ] /\
        List.filter is_header (lines data) = ["[source]"; "[dest]"]).
Proof.
  intros Hmk. unfold createRcloneConfig, MkdirAll, WriteFile.
  rewrite Hmk. split_and!.
  - rewrite <- configContent_sections. by destruct (writefile_result os).
  - by intros ->.
  - intros H1 H2 H3 H4 H5 H6. exists (configContent config).
    pose proof (configContent_lines config H1 H2 H3 H4 H5 H6) as Hlines.
    split_and!; [by destruct (writefile_result os) | done |].
    rewrite Hlines. reflexivity.
Qed.

Lemma C3_credential_file_witness :
  exists data,
    files_written (trace (createRcloneConfig ok_os sample_config))
    = [(configFile, data, 384%N)] /\
    lines data
    = [ "[source]";
        "type = s3";
        "provider = Other";
        "access_key_id = AKSRC";
        "secret_access_key = sk-src";
        "endpoint = https://s3.src.example";
        "acl = private";
        "";
        "[dest]";
        "type = s3";
        "provider = Other";
        "access_key_id = AKDST";
        "secret_access_key = sk-dst";
        "endpoint = https://s3.dst.example";
        "acl = private";
        "" ] /\
    List.filter is_header (lines data) = ["[source]"; "[dest]"].
Proof.
  destruct (C3_credential_file ok_os sample_config) as (_ & _ & H);
    [reflexivity|].
  apply H; reflexivity.
Defined.

(** C3, as the specification words it, fails twice.  The second section is
    not named "destination": no line of the file reads "[destination]".
    And a configuration that passes validation need not give two sections:
    an access key that holds a line feed is written as it is, and the file
    then has a third section. *)
Lemma C3_two_sections_counterexample :
  (files_written (trace (createRcloneConfig ok_os sample_config))
   <> [(configFile,
        render_ini (credential_sections "destination" sample_config),
        octal 6 0 0)]
   /\ ~ names (configContent sample_config) "[destination]"
   /\ names (configContent sample_config) "[dest]")
  /\
  (exists config,
     loadConfig required_keys
       (<["SOURCE_ACCESS_KEY" := "AK" +:+ nl +:+ "[third]"]> sample_env)
     = inr config /\
     exists data,
       files_written (trace (createRcloneConfig ok_os config))
       = [(configFile, data, octal 6 0 0)] /\
       List.filter is_header (lines data)
       = ["[source]"; "[third]"; "[dest]"]).
Proof.
  split.
  - split; [vm_compute; discriminate|].
    split; [intros [n Hn]; vm_compute in Hn; discriminate|].
    by eexists; vm_compute.
  - eexists. split; [vm_compute; reflexivity|].
    eexists. split; vm_compute; reflexivity.
Qed.

(** ** The invocation *)

(** [runSync] when the credential file could be created: it returns what
    [cmd.Run] returned, wrapped, and besides logging it creates the
    directory, writes the file, runs the engine and removes the file, in
    this order. *)
Lemma runSync_created os config logger :
  mkdirall_result os = None -> writefile_result os = None ->
  result (runSync os config logger)
  = Ret match run_error (run_result os) with
        | Some err => Some (Errorf_w "rclone sync failed: " err)
        | None => None
        end
  /\ actions (trace (runSync os config logger))
     = [ EMkdirAll configDir (octal 7 0 0);
         EWriteFile configFile (configContent config) (octal 6 0 0);
         ERun "rclone" (syncArgs config configFile);
         ERemove configFile ]
  /\ last (trace (runSync os config logger)) = Some (ERemove configFile).
Proof.
  intros Hmk Hwr.
  unfold_runSync.
  rewrite Hmk, Hwr.
  destruct (DryRun config) eqn:Hdry,
    (IsLevelEnabled logger InfoLevel), (run_error (run_result os));
    repeat split; reflexivity.
Qed.

(** [runSync] when the credential file could not be created: the error is
    returned wrapped, the engine is not run and nothing is removed. *)
Lemma runSync_not_created os config logger err :
  mkdirall_result os = Some err
  \/ (mkdirall_result os = None /\ writefile_result os = Some err) ->
  (exists err', result (runSync os config logger) = Ret (Some err'))
  /\ commands_run (trace (runSync os config logger)) = []
  /\ log_records (trace (runSync os config logger)) = [].
Proof.
  unfold_runSync.
  intros [->|[-> ->]]; (split; [eexists|]); by split.
Qed.

Lemma run_error_None r : run_error r = None <-> r = ExitStatus 0.
Proof.
  destruct r as [status|signal|e]; simpl.
  - destruct (Z.eqb_spec status 0) as [->|Hne]; split; congruence.
  - split; discriminate.
  - split; discriminate.
Qed.

Lemma main_loaded ParseLevel order os env config :
  loadConfig order env = inr config ->
  main ParseLevel order os env = syncJob ParseLevel os config.
Proof. unfold main. by intros ->. Qed.

(** [main] once the configuration is loaded and the credential file
    created: the status is zero exactly when the engine gave no error, and
    the file is removed before the process exits. *)
Lemma syncJob_created ParseLevel os config :
  mkdirall_result os = None -> writefile_result os = None ->
  exit_status (syncJob ParseLevel os config)
  = match run_error (run_result os) with Some _ => 1 | None => 0 end
  /\ actions (trace (syncJob ParseLevel os config))
     = ([ EMkdirAll configDir (octal 7 0 0);
          EWriteFile configFile (configContent config) (octal 6 0 0);
          ERun "rclone" (syncArgs config configFile);
          ERemove configFile ]
        ++ match run_error (run_result os) with
           | Some _ => [EExit 1]
           | None => []
           end)%list.
Proof.
  intros Hmk Hwr.
  unfold syncJob, Fatal; unfold_runSync.
  rewrite Hmk, Hwr.
  destruct (DryRun config) eqn:Hdry,
    (IsLevelEnabled (setupLogger ParseLevel (LogLevel config)) InfoLevel),
    (IsLevelEnabled (setupLogger ParseLevel (LogLevel config)) FatalLevel),
    (run_error (run_result os));
    split; reflexivity.
Qed.

(** C2. Once the credential file is created, [runSync] returns [nil]
    exactly when the child exited with status zero; on any other end of the
    child (a non-zero exit, a signal) and on a failure to start it, [runSync]
    returns an error that wraps the error of [cmd.Run]: [Unwrap] gives that
    error back and the text is "rclone sync failed: " followed by its text
    ("exit status N" with N the status in decimal, "signal: NAME", or the
    text of the failed start); the process then exits with status 1.  On
    each of these paths the call that removes the credential file is the
    last thing [runSync] does, after the run of the engine, and it comes
    before the exit of the process. *)
Theorem C2_sync_result ParseLevel order os env config logger :
  loadConfig order env = inr config ->
  mkdirall_result os = None -> writefile_result os = None ->
  (result (runSync os config logger) = Ret None
   <-> run_result os = ExitStatus 0)
  /\ (run_result os <> ExitStatus 0 ->
      exists err err',
        run_error (run_result os) = Some err /\
        result (runSync os config logger) = Ret (Some err') /\
        err' = Errorf_w "rclone sync failed: " err /\
        Unwrap err' = Some err /\
        Error err' = "rclone sync failed: " +:+ Error err /\
        exit_status (main ParseLevel order os env) = 1)
  /\ (exit_status (main ParseLevel order os env) = 0
      <-> run_result os = ExitStatus 0)
  /\ actions (trace (runSync os config logger))
     = [ EMkdirAll configDir (octal 7 0 0);
         EWriteFile configFile (configContent config) (octal 6 0 0);
         ERun "rclone" (syncArgs config configFile);
         ERemove configFile ]
  /\ last (trace (runSync os config logger)) = Some (ERemove configFile)
  /\ actions (trace (main ParseLevel order os env))
     = ([ EMkdirAll configDir (octal 7 0 0);
          EWriteFile configFile (configContent config) (octal 6 0 0);
          ERun "rclone" (syncArgs config configFile);
          ERemove configFile ]
        ++ match run_error (run_result os) with
           | Some _ => [EExit 1]
           | None => []
           end)%list
  /\ (forall e,
        run_result os = StartError e ->
        result (runSync os config logger)
        = Ret (Some (wrapError ("rclone sync failed: " +:+ Error e) e)))
  /\ (forall signal,
        run_result os = Signaled signal ->
        result (runSync os config logger)
        = Ret (Some (wrapError ("rclone sync failed: signal: " +:+ signal)
                       (errorString ("signal: " +:+ signal)))))
  /\ (forall status,
        run_result os = ExitStatus status -> status <> 0 ->
        exists text,
          result (runSync os config logger)
          = Ret (Some (wrapError ("rclone sync failed: exit status " +:+ text)
                         (errorString ("exit status " +:+ text)))) /\
          (minInt <= status <= maxInt -> Atoi text = Some status)).
Proof.
  intros Hload Hmk Hwr.
  destruct (runSync_created os config logger Hmk Hwr) as (Hres & Hact & Hlast).
  destruct (syncJob_created ParseLevel os config Hmk Hwr) as (Hexit & Hjob).
  rewrite (main_loaded _ _ _ _ _ Hload), Hres, Hexit.
  destruct (run_error_None (run_result os)) as [Hn1 Hn2].
  split_and!; try done.
  - destruct (run_error (run_result os)); split; try done.
    + by intros [=]%Hn2.
    + intros _. by apply Hn1.
  - intros Hne. destruct (run_error (run_result os)) as [err|] eqn:He.
    + exists err, (Errorf_w "rclone sync failed: " err). by split_and!.
    + by destruct Hne; apply Hn1.
  - destruct (run_error (run_result os)); split; try done.
    + by intros [=]%Hn2.
    + intros _. by apply Hn1.
  - intros e ->. reflexivity.
  - intros signal ->. reflexivity.
  - intros status -> Hne. exists (Itoa status). cbn [run_error].
    destruct (Z.eqb_spec status 0) as [|_]; [done|].
    split; [reflexivity | apply Atoi_Itoa].
Qed.

Lemma C2_sync_result_witness :
  (exists err err',
     run_error (run_result failing_os) = Some err /\
     result (runSync failing_os sample_config (mkLogger InfoLevel))
     = Ret (Some err') /\
     err' = Errorf_w "rclone sync failed: " err /\
     Unwrap err' = Some err /\
     Error err' = "rclone sync failed: " +:+ Error err /\
     exit_status (main parse_level required_keys failing_os sample_env) = 1)
  /\ (exists text,
        result (runSync failing_os sample_config (mkLogger InfoLevel))
        = Ret (Some (wrapError ("rclone sync failed: exit status " +:+ text)
                       (errorString ("exit status " +:+ text)))) /\
        Atoi text = Some 3).
Proof.
  destruct (C2_sync_result parse_level required_keys failing_os sample_env
              sample_config (mkLogger InfoLevel))
    as (_ & Hfail & _ & _ & _ & _ & _ & _ & Hstatus); [reflexivity..|].
  split; [apply Hfail; discriminate|].
  destruct (Hstatus 3) as (text & Hres & Hread); [reflexivity | lia |].
  exists text. split; [exact Hres|]. apply Hread. vm_compute. split; discriminate.
Defined.

(** The three ways a run can end, on the sample environment. *)
Example sync_outcomes :
  exit_status (main parse_level required_keys ok_os sample_env) = 0 /\
  exit_status (main parse_level required_keys failing_os sample_env) = 1 /\
  exit_status (main parse_level required_keys no_engine_os sample_env) = 1 /\
  result (runSync failing_os sample_config (mkLogger InfoLevel))
  = Ret (Some (wrapError "rclone sync failed: exit status 3"
                 (errorString "exit status 3"))).
Proof. repeat split; vm_compute; reflexivity. Qed.

(** ** Logging *)

(** The records [runSync] logs around the invocation: the remotes and the
    argument list before, the duration and the success flag after. *)
Lemma runSync_log_records os config logger :
  mkdirall_result os = None -> writefile_result os = None ->
  IsLevelEnabled logger InfoLevel = true ->
  log_records (trace (runSync os config logger))
  = ((if DryRun config
      then [mkEntry InfoLevel
              "Running in dry-run mode - no changes will be made" ∅]
      else [])
     ++ [ mkEntry InfoLevel "Starting rclone sync"
            (list_to_map
               [ ("source", VString (sourceRemote config));
                 ("dest", VString (destRemote config));
                 ("args", VStrings (syncArgs config configFile)) ]);
          mkEntry InfoLevel "Sync operation completed"
            (list_to_map
               [ ("duration", VDuration (elapsed os));
                 ("success",
                  VBool (bool_decide (run_error (run_result os) = None))) ])
        ])%list.
Proof.
  intros Hmk Hwr Hlvl.
  unfold_runSync.
  rewrite Hmk, Hwr, Hlvl.
  destruct (DryRun config) eqn:Hdry, (run_error (run_result os));
    reflexivity.
Qed.

Lemma runSync_with_keys os config logger sak ssk dak dsk :
  log_records (trace (runSync os (with_keys sak ssk dak dsk config) logger))
  = log_records (trace (runSync os config logger)).
Proof.
  destruct config.
  unfold_runSync; unfold with_keys; cbn [DryRun].
  destruct (mkdirall_result os), (writefile_result os), DryRun0,
    (IsLevelEnabled logger InfoLevel), (run_error (run_result os));
    reflexivity.
Qed.

Lemma syncJob_with_keys ParseLevel os config sak ssk dak dsk :
  log_records (trace (syncJob ParseLevel os (with_keys sak ssk dak dsk config)))
  = log_records (trace (syncJob ParseLevel os config)).
Proof.
  destruct config.
  unfold syncJob, Fatal; unfold_runSync; unfold with_keys;
    cbn [DryRun LogLevel].
  destruct (mkdirall_result os), (writefile_result os), DryRun0,
    (IsLevelEnabled (setupLogger ParseLevel LogLevel0) InfoLevel),
    (IsLevelEnabled (setupLogger ParseLevel LogLevel0) FatalLevel),
    (run_error (run_result os));
    reflexivity.
Qed.

Lemma Getenv_insert env key key' v :
  Getenv (<[key := v]> env) key'
  = if decide (key = key') then v else Getenv env key'.
Proof. unfold Getenv. rewrite lookup_insert. by case_decide. Qed.

(** Changing the four key variables, each to a non-empty value, changes the
    four key fields of the configuration and nothing else. *)
Lemma readConfig_with_key_vars env sak ssk dak dsk :
  sak <> "" -> ssk <> "" -> dak <> "" -> dsk <> "" ->
  readConfig (with_key_vars sak ssk dak dsk env)
  = with_keys sak ssk dak dsk (readConfig env).
Proof.
  intros Ha Hb Hc Hd.
  assert (forall key d,
            getEnvOrDefault (with_key_vars sak ssk dak dsk env) key d
            = if decide ("SOURCE_ACCESS_KEY" = key) then sak
              else if decide ("SOURCE_SECRET_KEY" = key) then ssk
              else if decide ("DEST_ACCESS_KEY" = key) then dak
              else if decide ("DEST_SECRET_KEY" = key) then dsk
              else getEnvOrDefault env key d) as Hget.
  { intros key d. unfold with_key_vars, getEnvOrDefault.
    rewrite !Getenv_insert.
    repeat case_decide; try reflexivity;
      match goal with
      | |- context [(?v =? "")%string] =>
          by destruct (String.eqb_spec v "")
      end. }
  assert (forall key d,
            key <> "SOURCE_ACCESS_KEY" -> key <> "SOURCE_SECRET_KEY" ->
            key <> "DEST_ACCESS_KEY" -> key <> "DEST_SECRET_KEY" ->
            getEnvIntOrDefault (with_key_vars sak ssk dak dsk env) key d
            = getEnvIntOrDefault env key d) as Hint.
  { intros key d ? ? ? ?. unfold with_key_vars, getEnvIntOrDefault.
    rewrite !Getenv_insert. by repeat case_decide. }
  unfold readConfig, with_keys; cbn [SourceEndpoint SourceBucket DestEndpoint
    DestBucket DestPrefix DryRun MaxDelete Retries BandwidthLimit LogLevel].
  rewrite !Hget, !Hint by discriminate.
  reflexivity.
Qed.

Lemma with_key_vars_complete env sak ssk dak dsk :
  sak <> "" -> ssk <> "" -> dak <> "" -> dsk <> "" ->
  (forall key, key ∈ required_keys -> ~ missing env key) ->
  forall key, key ∈ required_keys ->
              ~ missing (with_key_vars sak ssk dak dsk env) key.
Proof.
  intros Ha Hb Hc Hd Hall key Hk Hmiss%Getenv_empty.
  unfold with_key_vars in Hmiss. rewrite !Getenv_insert in Hmiss.
  repeat case_decide; try done.
  by apply (Hall key Hk), Getenv_empty.
Qed.

(** C4. The log records do not depend on the access keys and secret keys:
    replacing the four key fields of the configuration leaves every record
    logged by [runSync] and by [main] unchanged, and so does replacing the
    four key variables of a complete environment by other non-empty values.
    The two records around the invocation carry the remotes, the argument
    list, the duration and the success flag. *)
Theorem C4_logs_independent_of_keys :
  (forall os config logger sak ssk dak dsk,
     log_records (trace (runSync os (with_keys sak ssk dak dsk config) logger))
     = log_records (trace (runSync os config logger)))
  /\
  (forall ParseLevel order order' os env sak ssk dak dsk,
     (forall key, key ∈ required_keys -> ~ missing env key) ->
     sak <> "" -> ssk <> "" -> dak <> "" -> dsk <> "" ->
     log_records
       (trace (main ParseLevel order' os (with_key_vars sak ssk dak dsk env)))
     = log_records (trace (main ParseLevel order os env)))
  /\
  (forall os config logger,
     mkdirall_result os = None -> writefile_result os = None ->
     IsLevelEnabled logger InfoLevel = true ->
     DryRun config = false ->
     log_records (trace (runSync os config logger))
     = [ mkEntry InfoLevel "Starting rclone sync"
           (list_to_map
              [ ("source", VString (sourceRemote config));
                ("dest", VString (destRemote config));
                ("args", VStrings (syncArgs config configFile)) ]);
         mkEntry InfoLevel "Sync operation completed"
           (list_to_map
              [ ("duration", VDuration (elapsed os));
                ("success",
                 VBool (bool_decide (run_error (run_result os) = None))) ])
       ]).
Proof.
  split_and!.
  - intros. apply runSync_with_keys.
  - intros ParseLevel order order' os env sak ssk dak dsk Hall Ha Hb Hc Hd.
    pose proof (with_key_vars_complete env sak ssk dak dsk Ha Hb Hc Hd Hall)
      as Hall'.
    rewrite (main_loaded _ _ _ _ _ (loadConfig_complete order' _ Hall')).
    rewrite (main_loaded _ _ _ _ _ (loadConfig_complete order _ Hall)).
    rewrite readConfig_with_key_vars by done.
    apply syncJob_with_keys.
  - intros os config logger Hmk Hwr Hlvl Hdry.
    rewrite runSync_log_records by done. by rewrite Hdry.
Qed.

Lemma C4_logs_independent_of_keys_witness :
  log_records
    (trace (main parse_level (rotate 4 required_keys) failing_os
              (with_key_vars "k1" "k2" "k3" "k4" sample_env)))
  = log_records (trace (main parse_level required_keys failing_os sample_env)).
Proof.
  apply (proj1 (proj2 C4_logs_independent_of_keys));
    [exact sample_env_complete | discriminate..].
Defined.

(** ** The argument list *)

Lemma runSync_command os config logger :
  mkdirall_result os = None -> writefile_result os = None ->
  commands_run (trace (runSync os config logger))
  = [("rclone", syncArgs config configFile)].
Proof.
  intros Hmk Hwr.
  unfold_runSync.
  rewrite Hmk, Hwr.
  destruct (DryRun config) eqn:Hdry,
    (IsLevelEnabled logger InfoLevel), (run_error (run_result os));
    reflexivity.
Qed.

(** How the argument list reads: the slice literal, then one item for each
    conditional [append] that was taken. *)
Lemma read_args_syncArgs config file :
  read_args (syncArgs config file)
  = (standing_items config file
     ++ (if DryRun config then [Flag "--dry-run"] else [])
     ++ (if 0 <? MaxDelete config
         then [Opt "--max-delete" (Itoa (MaxDelete config))] else [])
     ++ (if negb (BandwidthLimit config =? "")%string
         then [Opt "--bwlimit" (BandwidthLimit config)] else []))%list.
Proof.
  unfold syncArgs, read_args, standing_items.
  generalize (Itoa (Retries config)), (Itoa (MaxDelete config)).
  intros retries maxDelete.
  destruct (DryRun config), (0 <? MaxDelete config),
    (negb (BandwidthLimit config =? "")%string); reflexivity.
Qed.

Lemma elem_of_read_args config file (a : Arg) :
  a ∈ read_args (syncArgs config file) <->
  a ∈ standing_items config file
  \/ (DryRun config = true /\ a = Flag "--dry-run")
  \/ (0 < MaxDelete config /\ a = Opt "--max-delete" (Itoa (MaxDelete config)))
  \/ (BandwidthLimit config <> ""
      /\ a = Opt "--bwlimit" (BandwidthLimit config)).
Proof.
  rewrite read_args_syncArgs, !elem_of_app.
  destruct (DryRun config);
    (destruct (Z.ltb_spec 0 (MaxDelete config)));
    (destruct (String.eqb_spec (BandwidthLimit config) ""));
    cbn [negb]; rewrite ?elem_of_nil, ?list_elem_of_singleton;
    intuition (try discriminate; try lia; congruence).
Qed.

(** Membership in the slice literal is settled item by item. *)
Ltac standing H :=
  unfold standing_items in H;
  repeat (apply elem_of_cons in H as [H|H]; [simplify_eq|]);
  try (by apply elem_of_nil in H).

Lemma syncArgs_take config file :
  take 3 (syncArgs config file)
  = ["sync"; sourceRemote config; destRemote config].
Proof.
  unfold syncArgs.
  destruct (DryRun config), (0 <? MaxDelete config),
    (negb (BandwidthLimit config =? "")%string); reflexivity.
Qed.

(** C5. The argument list starts with the [sync] command, the source
    remote [source:<source-bucket>] and the destination remote
    [dest:<dest-bucket>/<dest-prefix>]; it carries the delete-during and
    checksum flags, a stats interval of one minute at level INFO, and one
    retry option, whose value is the configured retry count: the text
    [strconv.Itoa] gives for it, which reads back ([strconv.Atoi]) as that
    number. *)
Theorem C5_argument_list os config logger :
  mkdirall_result os = None -> writefile_result os = None ->
  exists args,
    commands_run (trace (runSync os config logger)) = [("rclone", args)] /\
    take 3 args
    = [ "sync";
        "source:" +:+ SourceBucket config;
        "dest:" +:+ DestBucket config +:+ "/" +:+ DestPrefix config ] /\
    take 3 (read_args args)
    = [ Positional "sync";
        Positional ("source:" +:+ SourceBucket config);
        Positional ("dest:" +:+ DestBucket config +:+ "/"
                    +:+ DestPrefix config) ] /\
    Flag "--delete-during" ∈ read_args args /\
    Flag "--checksum" ∈ read_args args /\
    Opt "--stats" "1m" ∈ read_args args /\
    Opt "--stats-log-level" "INFO" ∈ read_args args /\
    (forall v, Opt "--retries" v ∈ read_args args
               <-> v = Itoa (Retries config)) /\
    (minInt <= Retries config <= maxInt ->
     exists v,
       Opt "--retries" v ∈ read_args args /\
       Atoi v = Some (Retries config) /\
       forall v', Opt "--retries" v' ∈ read_args args -> v' = v).
Proof.
  intros Hmk Hwr. exists (syncArgs config configFile).
  split; [by apply runSync_command|].
  split; [apply syncArgs_take|].
  split; [by rewrite read_args_syncArgs|].
  assert (forall a, a ∈ standing_items config configFile ->
                    a ∈ read_args (syncArgs config configFile)) as Hstanding.
  { intros a Ha. apply elem_of_read_args. by left. }
  assert (forall v, Opt "--retries" v ∈ read_args (syncArgs config configFile)
                    <-> v = Itoa (Retries config)) as Hretries.
  { intros v. rewrite elem_of_read_args. split.
    - intros [H|[[_ H]|[[_ H]|[_ H]]]]; try discriminate. by standing H.
    - intros ->. left. apply list_elem_of_In. cbn. tauto. }
  split_and!; try (apply Hstanding, list_elem_of_In; cbn; tauto); [done|].
  intros Hrange. exists (Itoa (Retries config)). split_and!.
  - by apply Hretries.
  - by apply Atoi_Itoa.
  - intros v'. apply Hretries.
Qed.

Lemma C5_argument_list_witness :
  exists args,
    commands_run
      (trace (runSync ok_os (readConfig (<["RETRIES" := "7"]> sample_env))
                (mkLogger InfoLevel)))
    = [("rclone", args)] /\
    take 3 args = ["sync"; "source:media"; "dest:backup/media"] /\
    Flag "--delete-during" ∈ read_args args /\
    Flag "--checksum" ∈ read_args args /\
    Opt "--stats" "1m" ∈ read_args args /\
    Opt "--stats-log-level" "INFO" ∈ read_args args /\
    exists v,
      Opt "--retries" v ∈ read_args args /\
      Atoi v = Some 7 /\
      forall v', Opt "--retries" v' ∈ read_args args -> v' = v.
Proof.
  destruct (C5_argument_list ok_os
              (readConfig (<["RETRIES" := "7"]> sample_env))
              (mkLogger InfoLevel))
    as (args & Hrun & Htake & _ & Hdel & Hsum & Hstats & Hlevel & _ & Hretries);
    [reflexivity..|].
  exists args. split_and!; try done.
  apply Hretries. vm_compute. split; discriminate.
Defined.

(** C6. The argument list has the dry-run flag exactly when the dry-run
    field is true, a max-delete option exactly when the ceiling is
    positive, and a bandwidth-limit option exactly when the limit is not
    empty; each option carries the configured value: the limit as it is,
    the ceiling as the text [strconv.Itoa] gives for it, which reads back
    ([strconv.Atoi]) as that number.  A list has a flag or an option when
    it reads so ([read_args]). *)
Theorem C6_conditional_flags os config logger :
  mkdirall_result os = None -> writefile_result os = None ->
  exists args,
    commands_run (trace (runSync os config logger)) = [("rclone", args)] /\
    (Flag "--dry-run" ∈ read_args args <-> DryRun config = true) /\
    (forall v, Opt "--max-delete" v ∈ read_args args
               <-> 0 < MaxDelete config /\ v = Itoa (MaxDelete config)) /\
    (forall v, Opt "--bwlimit" v ∈ read_args args
               <-> BandwidthLimit config <> "" /\ v = BandwidthLimit config) /\
    (Flag "--max-delete" ∉ read_args args) /\
    (Flag "--bwlimit" ∉ read_args args) /\
    (forall v, Opt "--dry-run" v ∉ read_args args) /\
    (minInt <= MaxDelete config <= maxInt -> 0 < MaxDelete config ->
     exists v,
       Opt "--max-delete" v ∈ read_args args /\
       Atoi v = Some (MaxDelete config) /\
       forall v', Opt "--max-delete" v' ∈ read_args args -> v' = v).
Proof.
  intros Hmk Hwr. exists (syncArgs config configFile).
  split; [by apply runSync_command|].
  assert (forall v,
            Opt "--max-delete" v ∈ read_args (syncArgs config configFile)
            <-> 0 < MaxDelete config /\ v = Itoa (MaxDelete config))
    as Hmax.
  { intros v. rewrite elem_of_read_args. split; [|intros [H ->]; by auto].
    intros [H|[[_ H]|[[Hpos H]|[_ H]]]]; try discriminate;
      [by standing H | by simplify_eq]. }
  split_and!.
  - rewrite elem_of_read_args. split; [|by auto].
    intros [H|[[H _]|[[_ H]|[_ H]]]]; try done; by standing H.
  - exact Hmax.
  - intros v. rewrite elem_of_read_args. split; [|intros [H ->]; by auto 6].
    intros [H|[[_ H]|[[_ H]|[Hne H]]]]; try discriminate;
      [by standing H | by simplify_eq].
  - intros [H|[[_ H]|[[_ H]|[_ H]]]]%elem_of_read_args;
      try discriminate; by standing H.
  - intros [H|[[_ H]|[[_ H]|[_ H]]]]%elem_of_read_args;
      try discriminate; by standing H.
  - intros v [H|[[_ H]|[[_ H]|[_ H]]]]%elem_of_read_args;
      try discriminate; by standing H.
  - intros Hrange Hpos. exists (Itoa (MaxDelete config)). split_and!.
    + by apply Hmax.
    + by apply Atoi_Itoa.
    + intros v' [_ ->]%Hmax. reflexivity.
Qed.

Lemma C6_conditional_flags_witness :
  exists args,
    commands_run
      (trace (runSync ok_os
                (readConfig
                   (<["DRY_RUN" := "true"]>
                      (<["MAX_DELETE" := "50"]>
                         (<["BANDWIDTH_LIMIT" := "50M"]> sample_env))))
                (mkLogger InfoLevel)))
    = [("rclone", args)] /\
    Flag "--dry-run" ∈ read_args args /\
    Opt "--bwlimit" "50M" ∈ read_args args /\
    exists v,
      Opt "--max-delete" v ∈ read_args args /\
      Atoi v = Some 50 /\
      forall v', Opt "--max-delete" v' ∈ read_args args -> v' = v.
Proof.
  destruct (C6_conditional_flags ok_os
              (readConfig
                 (<["DRY_RUN" := "true"]>
                    (<["MAX_DELETE" := "50"]>
                       (<["BANDWIDTH_LIMIT" := "50M"]> sample_env))))
              (mkLogger InfoLevel))
    as (args & Hrun & Hdry & _ & Hbw & _ & _ & _ & Hmax); [reflexivity..|].
  exists args. split; [exact Hrun|].
  split; [apply Hdry; reflexivity|].
  split; [apply Hbw; split; [discriminate | reflexivity]|].
  apply Hmax; [vm_compute; split; discriminate | reflexivity].
Defined.

(** The argument lists of the scenarios the specification lists. *)
Example argument_lists :
  syncArgs (readConfig (<["DRY_RUN" := "true"]> sample_env)) configFile
  = [ "sync"; "source:media"; "dest:backup/media";
      "--config"; "/tmp/rclone-config/rclone.conf";
      "--delete-during"; "--checksum"; "--retries"; "3";
      "--stats"; "1m"; "--stats-log-level"; "INFO"; "--progress";
      "--dry-run"; "--max-delete"; "1000" ]
  /\ drop 14 (syncArgs (readConfig (<["MAX_DELETE" := "50"]> sample_env))
                configFile)
     = ["--max-delete"; "50"]
  /\ drop 14 (syncArgs (readConfig (<["MAX_DELETE" := "0"]> sample_env))
                configFile)
     = []
  /\ drop 14 (syncArgs (readConfig (<["MAX_DELETE" := "-5"]> sample_env))
                configFile)
     = []
  /\ drop 14 (syncArgs (readConfig (<["BANDWIDTH_LIMIT" := "50M"]> sample_env))
                configFile)
     = ["--max-delete"; "1000"; "--bwlimit"; "50M"].
Proof. repeat split; vm_compute; reflexivity. Qed.

(** A bandwidth limit spelled like a flag is the operand of the
    bandwidth-limit option: the token is in the list, the flag is not. *)
Example bandwidth_limit_operand :
  let args :=
    syncArgs (readConfig (<["BANDWIDTH_LIMIT" := "--dry-run"]> sample_env))
      configFile in
  "--dry-run" ∈ args /\
  Opt "--bwlimit" "--dry-run" ∈ read_args args /\
  Flag "--dry-run" ∉ read_args args.
Proof.
  cbv zeta. split_and!.
  - apply list_elem_of_In. vm_compute. tauto.
  - apply list_elem_of_In. vm_compute. tauto.
  - intros Hin%list_elem_of_In. vm_compute in Hin.
    repeat (destruct Hin as [Hin|Hin]; [discriminate|]). done.
Qed.

(** * Further properties *)

(** ** Validation of an arbitrary configuration *)

Lemma required_keys_NoDup : NoDup required_keys.
Proof. apply (bool_decide_unpack _). vm_compute. reflexivity. Qed.

Lemma required_entries config key value :
  required config !! key = Some value
  <-> (key, value) ∈ zip required_keys (required_fields config).
Proof.
  unfold required. symmetry.
  apply (elem_of_list_to_map (M := gmap string)
           (zip required_keys (required_fields config))).
  rewrite fst_zip by reflexivity. apply required_keys_NoDup.
Qed.

Lemma required_entries_key config key value :
  (key, value) ∈ zip required_keys (required_fields config) ->
  key ∈ required_keys.
Proof.
  intros Hin. apply (elem_of_zip_l _ _ _ _ Hin).
Qed.

Lemma validateConfig_None_entries order config :
  order ≡ₚ required_keys ->
  validateConfig order config = None <->
  forall key value,
    (key, value) ∈ zip required_keys (required_fields config) ->
    value <> "".
Proof.
  intros Hperm. unfold validateConfig. rewrite first_empty_None. split.
  - intros H key value Hin. apply (H key). apply elem_of_range_map.
    split; [|by apply required_entries].
    rewrite Hperm. by eapply required_entries_key.
  - intros H key value [_ Hreq]%elem_of_range_map.
    by apply (H key), required_entries.
Qed.

Lemma Forall_required_fields (P : string -> Prop) config :
  Forall P (required_fields config) <->
  forall key value,
    (key, value) ∈ zip required_keys (required_fields config) -> P value.
Proof.
  unfold required_fields, required_keys. cbn [zip zip_with]. split.
  - intros H key value Hin.
    repeat (apply Forall_cons in H as [? H]).
    repeat (apply elem_of_cons in Hin as [[= -> ->]|Hin]; [done|]).
    by apply elem_of_nil in Hin.
  - intros H. repeat first [apply Forall_nil_2 | apply Forall_cons_2].
    + apply (H "SOURCE_S3_ENDPOINT"), list_elem_of_In; cbn; tauto.
    + apply (H "SOURCE_ACCESS_KEY"), list_elem_of_In; cbn; tauto.
    + apply (H "SOURCE_SECRET_KEY"), list_elem_of_In; cbn; tauto.
    + apply (H "SOURCE_BUCKET"), list_elem_of_In; cbn; tauto.
    + apply (H "DEST_S3_ENDPOINT"), list_elem_of_In; cbn; tauto.
    + apply (H "DEST_ACCESS_KEY"), list_elem_of_In; cbn; tauto.
    + apply (H "DEST_SECRET_KEY"), list_elem_of_In; cbn; tauto.
    + apply (H "DEST_BUCKET"), list_elem_of_In; cbn; tauto.
Qed.

(** X1. For any configuration, validation passes exactly when each of the
    eight required fields is non-empty; the order in which the map is
    visited has no say in that. *)
Theorem validateConfig_passes_iff_fields order config :
  order ≡ₚ required_keys ->
  validateConfig order config = None
  <-> Forall (fun value => value <> "") (required_fields config).
Proof.
  intros Hperm.
  by rewrite (validateConfig_None_entries _ _ Hperm), Forall_required_fields.
Qed.

Lemma validateConfig_passes_iff_fields_witness :
  validateConfig (rotate 4 required_keys) sample_config = None
  <-> Forall (fun value => value <> "") (required_fields sample_config).
Proof.
  apply (validateConfig_passes_iff_fields (rotate 4 required_keys)
           sample_config).
  apply (Permutation_app_comm
           ["DEST_S3_ENDPOINT"; "DEST_ACCESS_KEY";
            "DEST_SECRET_KEY"; "DEST_BUCKET"]
           ["SOURCE_S3_ENDPOINT"; "SOURCE_ACCESS_KEY";
            "SOURCE_SECRET_KEY"; "SOURCE_BUCKET"]).
Defined.

(** X2. The loop of [validateConfig] stops at the first empty value: the
    variable it names is the first one, in visiting order, whose value is
    empty; every variable visited before it has a non-empty value. *)
Theorem validateConfig_names_first_empty order config err :
  validateConfig order config = Some err ->
  exists before key after,
    order = (before ++ key :: after)%list /\
    err = missing_error key /\
    required config !! key = Some "" /\
    forall earlier, earlier ∈ before ->
                    required config !! earlier <> Some "".
Proof.
  unfold validateConfig, range_map.
  induction order as [|k order IH]; [done|].
  cbn [omap list_omap].
  destruct (required config !! k) as [v|] eqn:Hk; cbn [fmap option_fmap option_map].
  - cbn [first_empty]. destruct (String.eqb_spec v "") as [->|Hv].
    + intros [= <-]. exists [], k, order. split_and!; try done.
      intros earlier Hin. by apply elem_of_nil in Hin.
    + intros (before & key & after & -> & -> & Hkey & Hbefore)%IH.
      exists (k :: before), key, after. split_and!; try done.
      intros earlier [->|Hin]%elem_of_cons; [congruence | by apply Hbefore].
  - intros (before & key & after & -> & -> & Hkey & Hbefore)%IH.
    exists (k :: before), key, after. split_and!; try done.
    intros earlier [->|Hin]%elem_of_cons; [congruence | by apply Hbefore].
Qed.

Lemma validateConfig_names_first_empty_witness :
  exists before key after,
    rotate 4 required_keys = (before ++ key :: after)%list /\
    missing_error "DEST_BUCKET" = missing_error key /\
    required (readConfig (delete "SOURCE_BUCKET"
                            (delete "DEST_BUCKET" sample_env))) !! key
    = Some "" /\
    forall earlier,
      earlier ∈ before ->
      required (readConfig (delete "SOURCE_BUCKET"
                              (delete "DEST_BUCKET" sample_env))) !! earlier
      <> Some "".
Proof.
  apply (validateConfig_names_first_empty (rotate 4 required_keys)
           (readConfig (delete "SOURCE_BUCKET"
                          (delete "DEST_BUCKET" sample_env)))).
  vm_compute. reflexivity.
Defined.

(** ** Loading, further *)

(** X3. When exactly one required variable is missing, the error names it
    whatever the visiting order: the outcome of loading is then fixed, and
    so is the line [main] writes to standard error. *)
Theorem loadConfig_single_missing ParseLevel order os env key :
  order ≡ₚ required_keys ->
  key ∈ required_keys -> missing env key ->
  (forall other, other ∈ required_keys -> other <> key ->
                 ~ missing env other) ->
  loadConfig order env
  = inl (Errorf_w "configuration validation failed: " (missing_error key))
  /\ trace (main ParseLevel order os env)
     = [ EStderr ("Configuration error: "
                  +:+ ("configuration validation failed: "
                       +:+ "required environment variable " +:+ key
                       +:+ " is not set")
                  +:+ nl);
         EExit 1 ].
Proof.
  intros Hperm Hreq Hmiss Hothers.
  destruct (loadConfig_missing order env Hperm) as (key' & Hreq' & Hmiss' & Hl).
  { by exists key. }
  destruct (decide (key' = key)) as [->|Hne];
    [|by destruct (Hothers key' Hreq' Hne)].
  split; [done|]. unfold main. rewrite Hl. reflexivity.
Qed.

Lemma loadConfig_single_missing_witness :
  loadConfig (rotate 4 required_keys) (delete "SOURCE_BUCKET" sample_env)
  = inl (Errorf_w "configuration validation failed: "
           (missing_error "SOURCE_BUCKET"))
  /\ trace (main parse_level (rotate 4 required_keys) ok_os
              (delete "SOURCE_BUCKET" sample_env))
     = [ EStderr ("Configuration error: "
                  +:+ ("configuration validation failed: "
                       +:+ "required environment variable " +:+ "SOURCE_BUCKET"
                       +:+ " is not set")
                  +:+ nl);
         EExit 1 ].
Proof.
  apply (loadConfig_single_missing parse_level (rotate 4 required_keys) ok_os
           (delete "SOURCE_BUCKET" sample_env) "SOURCE_BUCKET").
  - apply (Permutation_app_comm
             ["DEST_S3_ENDPOINT"; "DEST_ACCESS_KEY";
              "DEST_SECRET_KEY"; "DEST_BUCKET"]
             ["SOURCE_S3_ENDPOINT"; "SOURCE_ACCESS_KEY";
              "SOURCE_SECRET_KEY"; "SOURCE_BUCKET"]).
  - apply list_elem_of_In. cbn. tauto.
  - left. reflexivity.
  - intros other Hin Hne [H|H]; each_required Hin; try done;
      vm_compute in H; discriminate.
Defined.

Lemma getEnvOrDefault_nonempty env key d :
  d <> "" -> getEnvOrDefault env key d <> "".
Proof.
  intros Hd. unfold getEnvOrDefault.
  by destruct (String.eqb_spec (Getenv env key) "").
Qed.

(** X4. What a loaded configuration is known to satisfy: the eight
    required fields are non-empty, the destination prefix and the log level
    are non-empty too (their defaults are), and the two integers are within
    the range of [int]. *)
Theorem loadConfig_invariant order env config :
  order ≡ₚ required_keys ->
  loadConfig order env = inr config ->
  Forall (fun value => value <> "") (required_fields config)
  /\ DestPrefix config <> ""
  /\ LogLevel config <> ""
  /\ minInt <= MaxDelete config <= maxInt
  /\ minInt <= Retries config <= maxInt.
Proof.
  intros Hperm Hload. unfold loadConfig in Hload.
  destruct (validateConfig order (readConfig env)) eqn:Hv; [done|].
  injection Hload as <-.
  pose proof (proj1 (validateConfig_None_entries _ _ Hperm) Hv) as Hfields.
  apply (proj2 (Forall_required_fields _ _)) in Hfields. clear Hv.
  rename Hfields into Hv.
  split; [done|].
  split_and!; try apply readConfig_int_range.
  - cbn [readConfig DestPrefix]. apply getEnvOrDefault_nonempty.
    unfold required_fields in Hv.
    do 3 apply Forall_cons in Hv as [_ Hv]. by apply Forall_cons in Hv as [? _].
  - cbn [readConfig LogLevel]. by apply getEnvOrDefault_nonempty.
Qed.

Lemma loadConfig_invariant_witness :
  Forall (fun value => value <> "") (required_fields sample_config)
  /\ DestPrefix sample_config <> ""
  /\ LogLevel sample_config <> ""
  /\ minInt <= MaxDelete sample_config <= maxInt
  /\ minInt <= Retries sample_config <= maxInt.
Proof.
  apply (loadConfig_invariant required_keys sample_env sample_config);
    reflexivity.
Defined.

(** The configuration is a function of the values [os.Getenv] gives for the
    fourteen variables. *)
Lemma readConfig_ext env env' :
  (forall key, key ∈ config_variables -> Getenv env key = Getenv env' key) ->
  readConfig env = readConfig env'.
Proof.
  intros H. unfold readConfig, getEnvOrDefault, getEnvIntOrDefault.
  repeat match goal with
         | |- context [Getenv env ?key] =>
             rewrite (H key) by (apply list_elem_of_In; cbn; tauto)
         end.
  reflexivity.
Qed.



(** X6. [loadConfig] reads fourteen variables and nothing else: two
    environments that agree on them give the same configuration, or the
    same error, whatever else they hold.  (This is about loading only: the
    engine is found through [PATH] and inherits the whole environment.) *)
Theorem only_config_variables_read order env env' :
  (forall key, key ∈ config_variables -> env !! key = env' !! key) ->
  readConfig env = readConfig env'
  /\ loadConfig order env = loadConfig order env'.
Proof.
  intros H.
  assert (readConfig env = readConfig env') as Heq.
  { apply readConfig_ext. intros key Hk. unfold Getenv. by rewrite (H key). }
  split; [done | unfold loadConfig; by rewrite Heq].
Qed.

Lemma only_config_variables_read_witness :
  readConfig (<["PATH" := "/opt/bin"]> sample_env) = readConfig sample_env
  /\ loadConfig required_keys (<["PATH" := "/opt/bin"]> sample_env)
     = loadConfig required_keys sample_env.
Proof.
  apply (only_config_variables_read required_keys
           (<["PATH" := "/opt/bin"]> sample_env) sample_env).
  intros key Hk. apply lookup_insert_ne. intros <-.
  apply list_elem_of_In in Hk. cbn in Hk.
  repeat (destruct Hk as [Hk|Hk]; [discriminate|]). done.
Defined.

(** ** The run as a whole *)

(** Unfolding [main]'s body down to the events it emits. *)
Ltac unfold_syncJob := unfold syncJob, Fatal; unfold_runSync.

Lemma runSync_result os config logger :
  result (runSync os config logger) = Ret (sync_error os).
Proof.
  unfold sync_error; unfold_runSync.
  destruct (mkdirall_result os), (writefile_result os), (DryRun config),
    (IsLevelEnabled logger InfoLevel), (run_error (run_result os));
    reflexivity.
Qed.

Lemma syncJob_exit_status ParseLevel os config :
  exit_status (syncJob ParseLevel os config)
  = match sync_error os with Some _ => 1 | None => 0 end.
Proof.
  unfold sync_error; unfold_syncJob.
  generalize (setupLogger ParseLevel (LogLevel config)). intros logger.
  destruct (mkdirall_result os), (writefile_result os), (DryRun config),
    (IsLevelEnabled logger InfoLevel), (IsLevelEnabled logger FatalLevel),
    (run_error (run_result os));
    reflexivity.
Qed.

Lemma sync_error_None os :
  sync_error os = None <->
  mkdirall_result os = None /\ writefile_result os = None /\
  run_result os = ExitStatus 0.
Proof.
  unfold sync_error. rewrite <- run_error_None.
  destruct (mkdirall_result os), (writefile_result os),
    (run_error (run_result os)); split; try done; by intros (? & ? & ?).
Qed.

(** X7. The process ends with status 0 or 1, and with 0 exactly when
    nothing went wrong: the eight required variables are set, the directory
    and the file could be created, and the engine exited with status zero. *)
Theorem exit_status_zero_iff ParseLevel order os env :
  order ≡ₚ required_keys ->
  (exit_status (main ParseLevel order os env) = 0
   \/ exit_status (main ParseLevel order os env) = 1)
  /\ (exit_status (main ParseLevel order os env) = 0
      <-> (forall key, key ∈ required_keys -> ~ missing env key)
          /\ mkdirall_result os = None
          /\ writefile_result os = None
          /\ run_result os = ExitStatus 0).
Proof.
  intros Hperm. rewrite <- sync_error_None.
  unfold main, loadConfig.
  destruct (validateConfig order (readConfig env)) as [err|] eqn:Hv.
  - split; [by right|]. split; [done|]. intros [Hall _].
    apply validateConfig_Some in Hv as (key & _ & Hreq & Hmiss & _).
    by destruct (Hall key).
  - rewrite syncJob_exit_status.
    assert (forall key, key ∈ required_keys -> ~ missing env key) as Hall.
    { intros key Hk.
      apply (proj1 (validateConfig_None order env) Hv key); [|done].
      by rewrite Hperm. }
    destruct (sync_error os); split; try tauto; split; try done.
    by intros [_ ?].
Qed.

Lemma exit_status_zero_iff_witness :
  exit_status (main parse_level required_keys ok_os sample_env) = 0
  <-> (forall key, key ∈ required_keys -> ~ missing sample_env key)
      /\ mkdirall_result ok_os = None
      /\ writefile_result ok_os = None
      /\ run_result ok_os = ExitStatus 0.
Proof.
  apply (exit_status_zero_iff parse_level required_keys ok_os sample_env).
  reflexivity.
Defined.

(** X8. When the credential file cannot be created the engine is not run
    and [os.Remove] is not called: after a failed [os.MkdirAll] the process
    exits at once, after a failed [os.WriteFile] it exits leaving whatever
    the write left behind.  The error keeps the text of the failed call
    behind two prefixes. *)
Theorem credential_file_failure ParseLevel order os env config err :
  loadConfig order env = inr config ->
  (mkdirall_result os = Some err ->
   actions (trace (main ParseLevel order os env))
   = [EMkdirAll configDir (octal 7 0 0); EExit 1]
   /\ exists err',
        result (runSync os config (setupLogger ParseLevel (LogLevel config)))
        = Ret (Some err') /\
        Error err'
        = "failed to create rclone config: "
          +:+ "failed to create rclone config directory: " +:+ Error err)
  /\
  (mkdirall_result os = None -> writefile_result os = Some err ->
   actions (trace (main ParseLevel order os env))
   = [ EMkdirAll configDir (octal 7 0 0);
       EWriteFile configFile (configContent config) (octal 6 0 0);
       EExit 1 ]
   /\ exists err',
        result (runSync os config (setupLogger ParseLevel (LogLevel config)))
        = Ret (Some err') /\
        Error err'
        = "failed to create rclone config: "
          +:+ "failed to write rclone config: " +:+ Error err).
Proof.
  intros Hload. rewrite (main_loaded _ _ _ _ _ Hload), runSync_result.
  unfold sync_error; unfold_syncJob.
  generalize (setupLogger ParseLevel (LogLevel config)). intros logger.
  split.
  - intros ->.
    destruct (IsLevelEnabled logger InfoLevel),
      (IsLevelEnabled logger FatalLevel); (split; [reflexivity|]);
      by eexists.
  - intros -> ->.
    destruct (IsLevelEnabled logger InfoLevel),
      (IsLevelEnabled logger FatalLevel); (split; [reflexivity|]);
      by eexists.
Qed.

Lemma credential_file_failure_witness :
  actions (trace (main parse_level required_keys
                    (mkOS None (Some (errorString "disk full"))
                       (ExitStatus 0) 0)
                    sample_env))
  = [ EMkdirAll configDir (octal 7 0 0);
      EWriteFile configFile (configContent sample_config) (octal 6 0 0);
      EExit 1 ]
  /\ exists err',
       result (runSync (mkOS None (Some (errorString "disk full"))
                          (ExitStatus 0) 0)
                 sample_config
                 (setupLogger parse_level (LogLevel sample_config)))
       = Ret (Some err') /\
       Error err'
       = "failed to create rclone config: "
         +:+ "failed to write rclone config: "
         +:+ Error (errorString "disk full").
Proof.
  apply (credential_file_failure parse_level required_keys
           (mkOS None (Some (errorString "disk full")) (ExitStatus 0) 0)
           sample_env sample_config (errorString "disk full"));
    reflexivity.
Defined.

(** ** Logging, further *)

Lemma getEnvOrDefault_insert_ne env key key' value d :
  key <> key' ->
  getEnvOrDefault (<[key := value]> env) key' d = getEnvOrDefault env key' d.
Proof.
  intros Hne. unfold getEnvOrDefault. rewrite Getenv_insert.
  by rewrite decide_False.
Qed.

Lemma getEnvIntOrDefault_insert_ne env key key' value d :
  key <> key' ->
  getEnvIntOrDefault (<[key := value]> env) key' d
  = getEnvIntOrDefault env key' d.
Proof.
  intros Hne. unfold getEnvIntOrDefault. rewrite Getenv_insert.
  by rewrite decide_False.
Qed.

Lemma readConfig_log_level env level :
  readConfig (<["LOG_LEVEL" := level]> env)
  = with_log_level
      (getEnvOrDefault (<["LOG_LEVEL" := level]> env) "LOG_LEVEL" "info")
      (readConfig env).
Proof.
  unfold readConfig, with_log_level;
    cbn [SourceEndpoint SourceAccessKey SourceSecretKey SourceBucket
         DestEndpoint DestAccessKey DestSecretKey DestBucket DestPrefix
         DryRun MaxDelete Retries BandwidthLimit].
  rewrite !(getEnvOrDefault_insert_ne env "LOG_LEVEL") by discriminate.
  rewrite !(getEnvIntOrDefault_insert_ne env "LOG_LEVEL") by discriminate.
  reflexivity.
Qed.

Lemma syncJob_log_level ParseLevel ParseLevel' os config level :
  actions (trace (syncJob ParseLevel os (with_log_level level config)))
  = actions (trace (syncJob ParseLevel' os config))
  /\ exit_status (syncJob ParseLevel os (with_log_level level config))
     = exit_status (syncJob ParseLevel' os config).
Proof.
  rewrite !syncJob_exit_status. split; [|done].
  unfold_syncJob. cbn [with_log_level LogLevel DryRun].
  generalize (setupLogger ParseLevel level),
    (setupLogger ParseLevel' (LogLevel config)).
  intros logger logger'. destruct config; cbn [DryRun].
  destruct (mkdirall_result os), (writefile_result os), DryRun0,
    (IsLevelEnabled logger InfoLevel), (IsLevelEnabled logger FatalLevel),
    (IsLevelEnabled logger' InfoLevel), (IsLevelEnabled logger' FatalLevel),
    (run_error (run_result os));
    reflexivity.
Qed.

(** X9. What the program does besides logging, and the status it ends
    with, depend neither on [LOG_LEVEL] nor on how the logging library
    reads level names. *)
Theorem behaviour_independent_of_log_level
    ParseLevel ParseLevel' order os env level :
  actions (trace (main ParseLevel order os (<["LOG_LEVEL" := level]> env)))
  = actions (trace (main ParseLevel' order os env))
  /\ exit_status (main ParseLevel order os (<["LOG_LEVEL" := level]> env))
     = exit_status (main ParseLevel' order os env).
Proof.
  unfold main, loadConfig. rewrite readConfig_log_level.
  change (validateConfig order (with_log_level ?l (readConfig env)))
    with (validateConfig order (readConfig env)).
  destruct (validateConfig order (readConfig env)); [done|].
  apply syncJob_log_level.
Qed.

(** X10. With a logger whose level is below info, [runSync] logs nothing,
    and the only record a whole run can leave is the fatal one, on failure;
    the status of the process is the same as at any other level. *)
Theorem quiet_below_info ParseLevel os config :
  IsLevelEnabled (setupLogger ParseLevel (LogLevel config)) InfoLevel = false ->
  log_records
    (trace (runSync os config (setupLogger ParseLevel (LogLevel config))))
  = []
  /\ log_records (trace (syncJob ParseLevel os config))
     = match sync_error os with
       | Some err =>
           if IsLevelEnabled (setupLogger ParseLevel (LogLevel config))
                FatalLevel
           then [mkEntry FatalLevel "Sync operation failed"
                   {[ "error" := VError err ]}]
           else []
       | None => []
       end
  /\ exit_status (syncJob ParseLevel os config)
     = match sync_error os with Some _ => 1 | None => 0 end.
Proof.
  intros Hquiet. split_and!; [| |apply syncJob_exit_status].
  - unfold_runSync. rewrite Hquiet.
    destruct (mkdirall_result os), (writefile_result os), (DryRun config),
      (run_error (run_result os)); reflexivity.
  - unfold sync_error; unfold_syncJob. rewrite Hquiet.
    destruct (mkdirall_result os), (writefile_result os), (DryRun config),
      (IsLevelEnabled (setupLogger ParseLevel (LogLevel config)) FatalLevel),
      (run_error (run_result os)); reflexivity.
Qed.

Lemma quiet_below_info_witness :
  log_records
    (trace (runSync failing_os
              (readConfig (<["LOG_LEVEL" := "error"]> sample_env))
              (setupLogger parse_level
                 (LogLevel (readConfig (<["LOG_LEVEL" := "error"]> sample_env))))))
  = []
  /\ log_records
       (trace (syncJob parse_level failing_os
                 (readConfig (<["LOG_LEVEL" := "error"]> sample_env))))
     = match sync_error failing_os with
       | Some err =>
           if IsLevelEnabled
                (setupLogger parse_level
                   (LogLevel (readConfig
                                (<["LOG_LEVEL" := "error"]> sample_env))))
                FatalLevel
           then [mkEntry FatalLevel "Sync operation failed"
                   {[ "error" := VError err ]}]
           else []
       | None => []
       end
  /\ exit_status
       (syncJob parse_level failing_os
          (readConfig (<["LOG_LEVEL" := "error"]> sample_env)))
     = match sync_error failing_os with Some _ => 1 | None => 0 end.
Proof.
  apply (quiet_below_info parse_level failing_os
           (readConfig (<["LOG_LEVEL" := "error"]> sample_env))).
  reflexivity.
Defined.

(** X11. The completion record tells the truth: whenever a run logs
    "Sync operation completed", its success field is true exactly when the
    process goes on to end with status zero, and its duration field is the
    time measured around [cmd.Run]. *)
Theorem completion_record_agrees_with_exit ParseLevel os config entry :
  entry ∈ log_records (trace (syncJob ParseLevel os config)) ->
  entry_message entry = "Sync operation completed" ->
  entry_data entry !! "success"
  = Some (VBool (bool_decide (exit_status (syncJob ParseLevel os config) = 0)))
  /\ entry_data entry !! "duration" = Some (VDuration (elapsed os)).
Proof.
  rewrite syncJob_exit_status.
  unfold sync_error; unfold_syncJob.
  generalize (setupLogger ParseLevel (LogLevel config)). intros logger.
  destruct (mkdirall_result os), (writefile_result os), (DryRun config),
    (IsLevelEnabled logger InfoLevel), (IsLevelEnabled logger FatalLevel),
    (run_error (run_result os));
    cbn; intros Hin Hmsg;
    repeat (apply elem_of_cons in Hin as [->|Hin];
            [try discriminate Hmsg; split; reflexivity|]);
    by apply elem_of_nil in Hin.
Qed.

Lemma completion_record_agrees_with_exit_witness :
  entry_data
    (mkEntry InfoLevel "Sync operation completed"
       (list_to_map [ ("duration", VDuration (elapsed failing_os));
                      ("success", VBool false) ])) !! "success"
  = Some (VBool (bool_decide
                   (exit_status (syncJob parse_level failing_os sample_config)
                    = 0)))
  /\ entry_data
       (mkEntry InfoLevel "Sync operation completed"
          (list_to_map [ ("duration", VDuration (elapsed failing_os));
                         ("success", VBool false) ])) !! "duration"
     = Some (VDuration (elapsed failing_os)).
Proof.
  apply (completion_record_agrees_with_exit parse_level failing_os
           sample_config).
  - apply list_elem_of_In. vm_compute. do 2 right. left. reflexivity.
  - reflexivity.
Defined.

(** X12. Nothing the program itself emits depends on the access keys and
    secret keys, except the content of the credential file: the argument
    list handed to the engine, the paths and modes of the file calls, the
    log records, the text on standard error and the exit status are the
    same for any two sets of keys.  (The events say nothing of the
    environment the child inherits, which holds the key variables; see
    [Run].) *)
Theorem emitted_events_independent_of_keys
    ParseLevel os config sak ssk dak dsk :
  map redact (trace (syncJob ParseLevel os (with_keys sak ssk dak dsk config)))
  = map redact (trace (syncJob ParseLevel os config))
  /\ commands_run
       (trace (syncJob ParseLevel os (with_keys sak ssk dak dsk config)))
     = commands_run (trace (syncJob ParseLevel os config)).
Proof.
  destruct config.
  unfold_syncJob; unfold with_keys; cbn [DryRun LogLevel].
  generalize (setupLogger ParseLevel LogLevel0). intros logger.
  destruct (mkdirall_result os), (writefile_result os), DryRun0,
    (IsLevelEnabled logger InfoLevel), (IsLevelEnabled logger FatalLevel),
    (run_error (run_result os));
    split; reflexivity.
Qed.

(** ** From the environment to the command line *)

Lemma syncJob_command ParseLevel os config :
  mkdirall_result os = None -> writefile_result os = None ->
  commands_run (trace (syncJob ParseLevel os config))
  = [("rclone", syncArgs config configFile)].
Proof.
  intros Hmk Hwr. unfold_syncJob. rewrite Hmk, Hwr.
  generalize (setupLogger ParseLevel (LogLevel config)). intros logger.
  destruct (DryRun config) eqn:Hdry,
    (IsLevelEnabled logger InfoLevel), (IsLevelEnabled logger FatalLevel),
    (run_error (run_result os)); reflexivity.
Qed.

(** X13. The integers on the command line, from the environment: an
    unreadable [MAX_DELETE] keeps the ceiling of 1000; a readable one that
    is zero or negative takes the ceiling away; a positive one is passed as
    text that reads back as the same number.  [RETRIES] is passed on as it
    was read, zero and negative values included. *)
Theorem integers_on_command_line os env logger :
  mkdirall_result os = None -> writefile_result os = None ->
  exists args,
    commands_run (trace (runSync os (readConfig env) logger))
    = [("rclone", args)] /\
    (Atoi (Getenv env "MAX_DELETE") = None ->
     Opt "--max-delete" "1000" ∈ read_args args) /\
    (forall n, Atoi (Getenv env "MAX_DELETE") = Some n -> n <= 0 ->
               forall v, Opt "--max-delete" v ∉ read_args args) /\
    (forall n, Atoi (Getenv env "MAX_DELETE") = Some n -> 0 < n ->
               exists v, Opt "--max-delete" v ∈ read_args args /\
                         Atoi v = Some n) /\
    (forall n, Atoi (Getenv env "RETRIES") = Some n ->
               exists v, Opt "--retries" v ∈ read_args args /\
                         Atoi v = Some n).
Proof.
  intros Hmk Hwr. exists (syncArgs (readConfig env) configFile).
  split; [by apply runSync_command|].
  assert (MaxDelete (readConfig env)
          = default 1000 (Atoi (Getenv env "MAX_DELETE"))) as Hmax
    by apply getEnvIntOrDefault_spec.
  assert (Retries (readConfig env)
          = default 3 (Atoi (Getenv env "RETRIES"))) as Hret
    by apply getEnvIntOrDefault_spec.
  split_and!.
  - intros Hnone. apply elem_of_read_args. right. right. left.
    rewrite Hmax, Hnone. by split.
  - intros n Hn Hle v [H|[[_ H]|[[Hpos H]|[_ H]]]]%elem_of_read_args;
      try discriminate; [by standing H|].
    rewrite Hmax, Hn in Hpos. cbn in Hpos. lia.
  - intros n Hn Hpos. exists (Itoa n). split.
    + apply elem_of_read_args. right. right. left.
      rewrite Hmax, Hn. by split.
    + by apply Atoi_Itoa, (Atoi_range _ _ Hn).
  - intros n Hn. exists (Itoa n). split.
    + apply elem_of_read_args. left. unfold standing_items.
      rewrite Hret, Hn. apply list_elem_of_In. cbn. tauto.
    + by apply Atoi_Itoa, (Atoi_range _ _ Hn).
Qed.

Lemma integers_on_command_line_witness :
  exists args,
    commands_run
      (trace (runSync ok_os
                (readConfig (<["MAX_DELETE" := "+50"]>
                               (<["RETRIES" := "-1"]> sample_env)))
                (mkLogger InfoLevel)))
    = [("rclone", args)] /\
    (exists v, Opt "--max-delete" v ∈ read_args args /\ Atoi v = Some 50) /\
    (exists v, Opt "--retries" v ∈ read_args args /\ Atoi v = Some (-1)).
Proof.
  destruct (integers_on_command_line ok_os
              (<["MAX_DELETE" := "+50"]> (<["RETRIES" := "-1"]> sample_env))
              (mkLogger InfoLevel))
    as (args & Hrun & _ & _ & Hmax & Hret); [reflexivity..|].
  exists args. split; [exact Hrun|]. split.
  - apply (Hmax 50); [reflexivity | lia].
  - apply (Hret (-1)). reflexivity.
Defined.

(** X14. The remotes of the invocation, from the environment: the source is
    [source:] followed by [SOURCE_BUCKET]; the destination is [dest:]
    followed by [DEST_BUCKET], a slash, and [DEST_PREFIX], or
    [SOURCE_BUCKET] again when [DEST_PREFIX] is unset or empty. *)
Theorem remotes_from_environment
    ParseLevel order os env sourceBucket destBucket :
  (forall key, key ∈ required_keys -> ~ missing env key) ->
  mkdirall_result os = None -> writefile_result os = None ->
  env !! "SOURCE_BUCKET" = Some sourceBucket ->
  env !! "DEST_BUCKET" = Some destBucket ->
  exists args,
    commands_run (trace (main ParseLevel order os env)) = [("rclone", args)] /\
    (missing env "DEST_PREFIX" ->
     take 3 args
     = [ "sync"; "source:" +:+ sourceBucket;
         "dest:" +:+ destBucket +:+ "/" +:+ sourceBucket ]) /\
    (forall prefix,
       env !! "DEST_PREFIX" = Some prefix -> prefix <> "" ->
       take 3 args
       = [ "sync"; "source:" +:+ sourceBucket;
           "dest:" +:+ destBucket +:+ "/" +:+ prefix ]).
Proof.
  intros Hall Hmk Hwr Hsb Hdb.
  exists (syncArgs (readConfig env) configFile).
  rewrite (main_loaded _ _ _ _ _ (loadConfig_complete order env Hall)).
  split; [by apply syncJob_command|].
  rewrite syncArgs_take. unfold sourceRemote, destRemote.
  cbn [readConfig SourceBucket DestBucket DestPrefix].
  rewrite !getEnvOrDefault_empty.
  rewrite (Getenv_lookup _ _ _ Hsb), (Getenv_lookup _ _ _ Hdb).
  split.
  - intros Hmiss%Getenv_empty. by rewrite getEnvOrDefault_unset.
  - intros prefix Hp Hne.
    rewrite getEnvOrDefault_set; by rewrite (Getenv_lookup _ _ _ Hp).
Qed.

Lemma remotes_from_environment_witness :
  exists args,
    commands_run (trace (main parse_level required_keys ok_os sample_env))
    = [("rclone", args)] /\
    (missing sample_env "DEST_PREFIX" ->
     take 3 args
     = [ "sync"; "source:" +:+ "media";
         "dest:" +:+ "backup" +:+ "/" +:+ "media" ]) /\
    (forall prefix,
       sample_env !! "DEST_PREFIX" = Some prefix -> prefix <> "" ->
       take 3 args
       = [ "sync"; "source:" +:+ "media";
           "dest:" +:+ "backup" +:+ "/" +:+ prefix ]).
Proof.
  apply (remotes_from_environment parse_level required_keys ok_os sample_env
           "media" "backup");
    [exact sample_env_complete | reflexivity..].
Defined.

(** ** The credential file, line by line *)

(** X15. When the keys and endpoints hold no line feed, the credential
    file reads as fifteen lines and a final line feed, and exactly two of
    them open a section: [[source]] and [[dest]]. *)
Theorem credential_file_lines config :
  has_newline (SourceAccessKey config) = false ->
  has_newline (SourceSecretKey config) = false ->
  has_newline (SourceEndpoint config) = false ->
  has_newline (DestAccessKey config) = false ->
  has_newline (DestSecretKey config) = false ->
  has_newline (DestEndpoint config) = false ->
  lines (configContent config)
  = [ "[source]";
      "type = s3";
      "provider = Other";
      "access_key_id = " +:+ SourceAccessKey config;
      "secret_access_key = " +:+ SourceSecretKey config;
      "endpoint = " +:+ SourceEndpoint config;
      "acl = private";
      "";
      "[dest]";
      "type = s3";
      "provider = Other";
      "access_key_id = " +:+ DestAccessKey config;
      "secret_access_key = " +:+ DestSecretKey config;
      "endpoint = " +:+ DestEndpoint config;
      "acl = private";
      "" ]
  /\ List.filter is_header (lines (configContent config))
     = ["[source]"; "[dest]"].
Proof.
  intros H1 H2 H3 H4 H5 H6.
  pose proof (configContent_lines config H1 H2 H3 H4 H5 H6) as Hlines.
  split; [done|]. rewrite Hlines. reflexivity.
Qed.

Lemma credential_file_lines_witness :
  List.filter is_header (lines (configContent sample_config))
  = ["[source]"; "[dest]"].
Proof.
  apply (credential_file_lines sample_config); reflexivity.
Defined.

(** A key that carries a line feed can open a section of its own: the
    condition of the last theorem is needed. *)
Example credential_file_extra_section :
  List.filter is_header
    (lines (configContent
              (readConfig
                 (<["SOURCE_ACCESS_KEY" := "AK" +:+ nl +:+ "[third]"]>
                    sample_env))))
  = ["[source]"; "[third]"; "[dest]"].
Proof. vm_compute. reflexivity. Qed.
